(** * CloudBot: web services utilities and the page checker

    A shallow embedding of [cloudbot/util/web.py] (URL shortening and
    expansion, pasting with fallback over the registered pastebins) and of
    [plugins/pagecheck.py] (the [down] and [isup] commands), followed by the
    properties of the specification that concern them.

    Conventions of the embedding:
    - a Python [str] is a [string]; a character stands for a code point
      below 256;
    - a Python call either returns a value or raises: [result A];
    - the two registries [shorteners] and [pastebins] are dict objects of
      the module: they live in a store of dict objects, addressed by
      location, so that [pastebins.copy()] and an alias can be told apart;
    - what the code gets from outside (the HTTP exchange done by [requests],
      [urllib.parse], [BeautifulSoup]) is an oracle, the [World];
    - the [while] loop of [paste] runs on fuel; [paste] provides enough of
      it, and [paste_total] shows that it never runs out. *)

From Stdlib Require Import ZArith Ascii String List Bool Lia DecimalString.
From stdpp Require Import gmap strings list.

Local Open Scope Z_scope.
Set Warnings "-register-all".

(** ** Python strings *)

Module Str.

(** [needle in hay] on two [str]: substring test. *)
Fixpoint contains (needle hay : string) : bool :=
  String.prefix needle hay ||
  match hay with
  | EmptyString => false
  | String _ hay' => contains needle hay'
  end.

(** [c.lower()] for a code point below 256: A to Z, and the capital
    letters of Latin-1. *)
Definition lower_ascii (c : ascii) : ascii :=
  let n := nat_of_ascii c in
  if ((65 <=? n) && (n <=? 90) || (192 <=? n) && (n <=? 214)
      || (216 <=? n) && (n <=? 222))%nat
  then ascii_of_nat (n + 32) else c.

Fixpoint lower (s : string) : string :=
  match s with
  | EmptyString => EmptyString
  | String c s' => String (lower_ascii c) (lower s')
  end.

(** [c.isspace()] for a code point below 256. *)
Definition isspace (c : ascii) : bool :=
  let n := nat_of_ascii c in
  ((9 <=? n) && (n <=? 13) || (28 <=? n) && (n <=? 32)
   || (n =? 133) || (n =? 160))%nat.

Fixpoint lstrip (s : string) : string :=
  match s with
  | EmptyString => EmptyString
  | String c s' => if isspace c then lstrip s' else s
  end.

Fixpoint rstrip (s : string) : string :=
  match s with
  | EmptyString => EmptyString
  | String c s' =>
      match rstrip s' with
      | EmptyString => if isspace c then EmptyString else String c EmptyString
      | r => String c r
      end
  end.

(** [s.strip()] *)
Definition strip (s : string) : string := lstrip (rstrip s).

(** Truth value of a [str]: the empty string is false. *)
Definition truthy (s : string) : bool :=
  match s with EmptyString => false | _ => true end.

End Str.

(** ** Python values

    The values that travel through the module: strings, and what
    [Response.json()] decodes (floats left out). *)

Inductive pyval : Type :=
| PyNone
| PyBool (b : bool)
| PyInt (z : Z)
| PyStr (s : string)
| PyList (l : list pyval)
| PyDict (d : list (string * pyval)).

(** An insertion-ordered dict with [str] keys, as an association list in
    insertion order. The operations keep the keys distinct. *)
Abbreviation pydict V := (list (string * V)) (only parsing).

Module Dict.
Section Ops.
Context {V : Type}.

(** [d.get(k)] *)
Fixpoint get (d : pydict V) (k : string) : option V :=
  match d with
  | [] => None
  | (k', v) :: d' => if String.eqb k k' then Some v else get d' k
  end.

(** [d[k] = v]: in place when [k] is a key, at the end otherwise. *)
Fixpoint set (d : pydict V) (k : string) (v : V) : pydict V :=
  match d with
  | [] => [(k, v)]
  | (k', v') :: d' =>
      if String.eqb k k' then (k', v) :: d' else (k', v') :: set d' k v
  end.

(** [del d[k]] *)
Fixpoint remove (d : pydict V) (k : string) : pydict V :=
  match d with
  | [] => []
  | (k', v) :: d' => if String.eqb k k' then d' else (k', v) :: remove d' k
  end.

(** [d.popitem()]: the pair inserted last and the rest, [None] on an
    empty dict. *)
Fixpoint popitem (d : pydict V) : option ((string * V) * pydict V) :=
  match d with
  | [] => None
  | kv :: d' =>
      match popitem d' with
      | None => Some (kv, [])
      | Some (last, rest) => Some (last, kv :: rest)
      end
  end.

(** [list(d)]: the keys in insertion order. *)
Definition keys (d : pydict V) : list string := map fst d.

Definition wf (d : pydict V) : Prop := NoDup (keys d).
End Ops.
End Dict.

(** ** HTTP exchanges, exceptions and results *)

(** What the code reads of a [requests.Response]. [json] is what
    [r.json()] decodes from the body, [None] when the body is not JSON. *)
Record Response : Type := mkResponse {
  status_code : Z;
  reason : string;
  headers : list (string * string);
  text : string;
  json : option pyval
}.

(** The exceptions the code can meet. [ServiceError] is the class of
    [web.py]; [HTTPError] and [ConnectionError] are those of [requests],
    [RequestException] stands for the other failures of [requests]
    (a read timeout, too many redirects, an invalid URL); the rest are
    built in. Only [KeyError] is a [LookupError] here. *)
Inductive exn : Type :=
| ServiceError (message : pyval) (request : Response)
| HTTPError (response : Response)
| ConnectionError
| RequestException
| KeyError (key : string)
| NameError
| TypeError
| ValueError
| AttributeError
| NotImplementedError.

Definition is_ServiceError (e : exn) : bool :=
  match e with ServiceError _ _ => true | _ => false end.

Definition is_LookupError (e : exn) : bool :=
  match e with KeyError _ => true | _ => false end.

Definition is_ConnectionError (e : exn) : bool :=
  match e with ConnectionError => true | _ => false end.

(** [except RequestException]: the three classes of [requests]. *)
Definition is_RequestException (e : exn) : bool :=
  match e with
  | HTTPError _ | ConnectionError | RequestException => true
  | _ => false
  end.

Inductive result (A : Type) : Type :=
| Return (a : A)
| Raise (e : exn).
Arguments Return {A} a.
Arguments Raise {A} e.

(** The call raised a [ServiceError]. *)
Definition raises_ServiceError {A : Type} (r : result A) : Prop :=
  exists m q, r = Raise (ServiceError m q).

Definition rbind {A B : Type} (r : result A) (k : A -> result B) : result B :=
  match r with
  | Return a => k a
  | Raise e => Raise e
  end.

Declare Scope result_scope.
Delimit Scope result_scope with result.
Notation "x <- c ;; k" := (rbind c (fun x => k))
  (at level 100, c at next level, right associativity) : result_scope.
Notation "c ;;; k" := (rbind c (fun _ => k))
  (at level 100, right associativity) : result_scope.

(** [k in v] for a [str] [k]. *)
Definition py_contains (k : string) (v : pyval) : result bool :=
  match v with
  | PyStr s => Return (Str.contains k s)
  | PyList l =>
      Return (existsb (fun x => match x with PyStr s => String.eqb k s | _ => false end) l)
  | PyDict d => Return (existsb (String.eqb k) (Dict.keys d))
  | PyNone | PyBool _ | PyInt _ => Raise TypeError
  end.

(** [v[k]] for a [str] [k]. *)
Definition py_getitem (v : pyval) (k : string) : result pyval :=
  match v with
  | PyDict d =>
      match Dict.get d k with
      | Some x => Return x
      | None => Raise (KeyError k)
      end
  | _ => Raise TypeError
  end.

(** [r.headers], a case-insensitive dict. *)
Module Headers.
Fixpoint get (h : list (string * string)) (name : string) : option string :=
  match h with
  | [] => None
  | (k, v) :: h' =>
      if String.eqb (Str.lower k) (Str.lower name) then Some v else get h' name
  end.

Definition mem (name : string) (h : list (string * string)) : bool :=
  match get h name with Some _ => true | None => false end.

Definition getitem (h : list (string * string)) (name : string) : result string :=
  match get h name with
  | Some v => Return v
  | None => Raise (KeyError name)
  end.
End Headers.

(** A request as the code builds it. A parameter or a form field is a
    Python value: [None] when an optional argument was left out. *)
Inductive verb : Type := GET | POST.

Inductive payload : Type :=
| NoData
| RawData (s : string)
| FormData (fields : list (string * pyval))
| JsonDumps (v : pyval).

Record Request : Type := mkRequest {
  req_verb : verb;
  req_url : string;
  req_params : list (string * pyval);
  req_data : payload;
  req_headers : list (string * string);
  allow_redirects : bool
}.

(** [urllib.parse.urlsplit(url)]: the five components. *)
Record SplitResult : Type := mkSplit {
  scheme : string;
  netloc : string;
  path : string;
  query : string;
  fragment : string
}.

(** [urllib.parse.urlparse(url)]: the six components. *)
Record ParseResult : Type := mkParse {
  p_scheme : string;
  p_netloc : string;
  p_path : string;
  p_params : string;
  p_query : string;
  p_fragment : string
}.

(** The outside of the program.
    - [send]: what [requests.get] or [requests.post] does with a request,
      a response or an exception of [requests];
    - [urlsplit], [urlparse]: the functions of [urllib.parse], which
      raise [ValueError] on some inputs;
    - [find_div_text html id]: [BeautifulSoup(html, 'lxml').find('div',
      id=id)] followed by [.text], [None] when no such element exists. *)
Record World : Type := mkWorld {
  send : Request -> result Response;
  urlsplit : string -> result SplitResult;
  urlparse : string -> result ParseResult;
  find_div_text : string -> string -> option string
}.

Module requests.

Definition codes_ok : Z := 200.
Definition codes_created : Z := 201.

Definition get (w : World) (url : string) (params : list (string * pyval))
    (redirects : bool) : result Response :=
  send w (mkRequest GET url params NoData [] redirects).

Definition post (w : World) (url : string) (params : list (string * pyval))
    (data : payload) (hdrs : list (string * string)) : result Response :=
  send w (mkRequest POST url params data hdrs true).

(** [r.raise_for_status()]: [HTTPError] for a client or server error
    status, 400 to 599. *)
Definition raise_for_status (r : Response) : result unit :=
  if (400 <=? status_code r) && (status_code r <? 600)
  then Raise (HTTPError r)
  else Return tt.

End requests.

(** A [str] or [None] argument as a Python value. *)
Definition of_opt (o : option string) : pyval :=
  match o with Some s => PyStr s | None => PyNone end.

(** Truth value of a [str] or [None] argument. *)
Definition opt_truthy (o : option string) : bool :=
  match o with Some s => Str.truthy s | None => false end.

(** ** Rendering values: [str(v)] and [repr(v)] *)

Module Render.

Definition hex_digit (n : nat) : ascii :=
  if (n <? 10)%nat then ascii_of_nat (48 + n) else ascii_of_nat (87 + n).

Definition quote1 : ascii := "039"%char.
Definition quote2 : ascii := "034"%char.
Definition backslash : ascii := "092"%char.

Definition printable (n : nat) : bool :=
  negb ((n <? 32) || (n =? 127) || (128 <=? n) && (n <=? 160) || (n =? 173))%nat.

Definition repr_char (q c : ascii) : string :=
  let n := nat_of_ascii c in
  if (Ascii.eqb c backslash || Ascii.eqb c q)%bool then String backslash (String c EmptyString)
  else if (n =? 9)%nat then String backslash "t"
  else if (n =? 10)%nat then String backslash "n"
  else if (n =? 13)%nat then String backslash "r"
  else if printable n then String c EmptyString
  else String backslash
         (String "x" (String (hex_digit (n / 16)%nat)
                        (String (hex_digit (n mod 16)%nat) EmptyString))).

Fixpoint repr_chars (q : ascii) (s : string) : string :=
  match s with
  | EmptyString => EmptyString
  | String c s' => repr_char q c +:+ repr_chars q s'
  end.

(** [repr(s)]: double quotes only when [s] has a single quote and no
    double quote. *)
Definition repr_str (s : string) : string :=
  let q :=
    if Str.contains (String quote1 EmptyString) s
       && negb (Str.contains (String quote2 EmptyString) s)
    then quote2 else quote1 in
  String q (repr_chars q s +:+ String q EmptyString).

Fixpoint repr (v : pyval) : string :=
  match v with
  | PyNone => "None"
  | PyBool true => "True"
  | PyBool false => "False"
  | PyInt z => NilZero.string_of_int (Z.to_int z)
  | PyStr s => repr_str s
  | PyList l =>
      "[" +:+
      (fix items (l : list pyval) : string :=
         match l with
         | [] => EmptyString
         | [x] => repr x
         | x :: l' => repr x +:+ ", " +:+ items l'
         end) l +:+ "]"
  | PyDict d =>
      "{" +:+
      (fix items (d : list (string * pyval)) : string :=
         match d with
         | [] => EmptyString
         | [(k, x)] => repr_str k +:+ ": " +:+ repr x
         | (k, x) :: d' => repr_str k +:+ ": " +:+ repr x +:+ ", " +:+ items d'
         end) d +:+ "}"
  end.

(** [str(v)], what a [{}] field of [str.format] shows. *)
Definition str (v : pyval) : string :=
  match v with
  | PyStr s => s
  | _ => repr v
  end.

End Render.

(** [ServiceError.__str__] *)
Definition ServiceError_str (message : pyval) (request : Response) : string :=
  "[HTTP " +:+ Render.str (PyInt (status_code request)) +:+ "] "
  +:+ Render.str message.

(** ** The classes of [web.py]

    A class is the record of the methods a subclass overrides; an instance
    carries no data of its own. [try_shorten] is defined once, on
    [Shortener], and no subclass overrides it. A method uses its arguments
    and the network only: it is a function of the world, and has no access
    to the registries. *)

(** The block repeated after every request:
    [try: r.raise_for_status()]
    [except RequestException as e: r = e.response; raise ServiceError(r.reason, r)]. *)
Definition raise_ServiceError_for_status (r : Response) : result unit :=
  match requests.raise_for_status r with
  | Return u => Return u
  | Raise e =>
      if is_RequestException e then
        match e with
        | HTTPError r' => Raise (ServiceError (PyStr (reason r')) r')
        | _ => Raise AttributeError
        end
      else Raise e
  end.

(** [r.text], under a name that an argument called [text] does not hide. *)
Definition response_text (r : Response) : string := text r.

(** [r.json()] *)
Definition response_json (r : Response) : result pyval :=
  match json r with
  | Some j => Return j
  | None => Raise ValueError
  end.

Module Shortener.

Record t : Type := class {
  shorten : World -> string -> option string -> option string -> result pyval;
  expand : World -> string -> result pyval
}.

Definition shorten_ (w : World) (url : string) (custom key : option string)
    : result pyval :=
  Return (PyStr url).

Definition expand_ (w : World) (url : string) : result pyval :=
  (r <- requests.get w url [] false;;
   raise_ServiceError_for_status r;;;
   if Headers.mem "location" (headers r) then
     (s <- Headers.getitem (headers r) "location";; Return (PyStr s))
   else
     Raise (ServiceError (PyStr "That URL does not exist") r))%result.

(** [Shortener()] *)
Definition new : t := class shorten_ expand_.

Definition try_shorten (self : t) (w : World) (url : string)
    (custom key : option string) : result pyval :=
  match shorten self w url custom key with
  | Raise e => if is_ServiceError e then Return (PyStr url) else Raise e
  | Return v => Return v
  end.

End Shortener.

Module Pastebin.

Record t : Type := class {
  paste : World -> string -> string -> result pyval
}.

Definition paste_ (w : World) (data ext : string) : result pyval :=
  Raise NotImplementedError.

(** [Pastebin()] *)
Definition new : t := class paste_.

End Pastebin.

(** ** The registered backends *)

Module Isgd.

Definition shorten (w : World) (url : string) (custom key : option string)
    : result pyval :=
  (let p := [("url", PyStr url); ("shorturl", of_opt custom); ("format", PyStr "json")] in
   r <- requests.get w "http://is.gd/create.php" p true;;
   raise_ServiceError_for_status r;;;
   j <- response_json r;;
   found <- py_contains "shorturl" j;;
   if (found : bool) then py_getitem j "shorturl"
   else (m <- py_getitem j "errormessage";; Raise (ServiceError m r)))%result.

Definition expand (w : World) (url : string) : result pyval :=
  (let p := [("shorturl", PyStr url); ("format", PyStr "json")] in
   r <- requests.get w "http://is.gd/forward.php" p true;;
   raise_ServiceError_for_status r;;;
   j <- response_json r;;
   found <- py_contains "url" j;;
   if (found : bool) then py_getitem j "url"
   else (m <- py_getitem j "errormessage";; Raise (ServiceError m r)))%result.

Definition new : Shortener.t := Shortener.class shorten expand.

End Isgd.

Module Googl.

Definition shorten (w : World) (url : string) (custom key : option string)
    : result pyval :=
  (let h := [("content-type", "application/json")] in
   let k := [("key", of_opt key)] in
   let p := PyDict [("longUrl", PyStr url)] in
   r <- requests.post w "https://www.googleapis.com/urlshortener/v1/url" k
          (JsonDumps p) h;;
   raise_ServiceError_for_status r;;;
   j <- response_json r;;
   found <- py_contains "error" j;;
   if negb found then py_getitem j "id"
   else (e <- py_getitem j "error";; m <- py_getitem e "message";;
         Raise (ServiceError m r)))%result.

Definition expand (w : World) (url : string) : result pyval :=
  (let p := [("shortUrl", PyStr url)] in
   r <- requests.get w "https://www.googleapis.com/urlshortener/v1/url" p true;;
   raise_ServiceError_for_status r;;;
   j <- response_json r;;
   found <- py_contains "error" j;;
   if negb found then py_getitem j "longUrl"
   else (e <- py_getitem j "error";; m <- py_getitem e "message";;
         Raise (ServiceError m r)))%result.

Definition new : Shortener.t := Shortener.class shorten expand.

End Googl.

Module Gitio.

Definition shorten (w : World) (url : string) (custom key : option string)
    : result pyval :=
  (let p := [("url", PyStr url); ("code", of_opt custom)] in
   r <- requests.post w "http://git.io" [] (FormData p) [];;
   raise_ServiceError_for_status r;;;
   if status_code r =? requests.codes_created then
     s <- Headers.getitem (headers r) "location";;
     if opt_truthy custom
        && negb (match custom with Some c => Str.contains c s | None => false end)
     then Raise (ServiceError (PyStr "That URL is already in use") r)
     else Return (PyStr s)
   else Raise (ServiceError (PyStr (text r)) r))%result.

(** [expand] is the one of [Shortener]. *)
Definition new : Shortener.t := Shortener.class shorten Shortener.expand_.

End Gitio.

Definition HASTEBIN_SERVER : string := "https://hastebin.com".

Module Hastebin.

(** [r.status_code is requests.codes.ok] compares two small integers. *)
Definition paste (w : World) (data ext : string) : result pyval :=
  (r <- requests.post w (HASTEBIN_SERVER +:+ "/documents") [] (RawData data) [];;
   raise_ServiceError_for_status r;;;
   j <- response_json r;;
   if status_code r =? requests.codes_ok then
     k <- py_getitem j "key";;
     Return (PyStr (HASTEBIN_SERVER +:+ "/" +:+ Render.str k +:+ "." +:+ ext))
   else (m <- py_getitem j "message";; Raise (ServiceError m r)))%result.

Definition new : Pastebin.t := Pastebin.class paste.

End Hastebin.

(** ** The store of dict objects and the monad of module code *)

(** What a registry holds: an instance of a [Shortener] class or of a
    [Pastebin] class. A method that the class lacks raises
    [AttributeError]. *)
Inductive instance : Type :=
| ShortenerObj (s : Shortener.t)
| PastebinObj (p : Pastebin.t).

Definition call_shorten (impl : instance) (w : World) (url : string)
    (custom key : option string) : result pyval :=
  match impl with
  | ShortenerObj s => Shortener.shorten s w url custom key
  | PastebinObj _ => Raise AttributeError
  end.

Definition call_try_shorten (impl : instance) (w : World) (url : string)
    (custom key : option string) : result pyval :=
  match impl with
  | ShortenerObj s => Shortener.try_shorten s w url custom key
  | PastebinObj _ => Raise AttributeError
  end.

Definition call_expand (impl : instance) (w : World) (url : string) : result pyval :=
  match impl with
  | ShortenerObj s => Shortener.expand s w url
  | PastebinObj _ => Raise AttributeError
  end.

Definition call_paste (impl : instance) (w : World) (data ext : string) : result pyval :=
  match impl with
  | PastebinObj p => Pastebin.paste p w data ext
  | ShortenerObj _ => Raise AttributeError
  end.

(** A location names a dict object. *)
Abbreviation loc := nat (only parsing).

(** The state of the program: the dict objects, and what went to the
    logger. *)
Record state : Type := mkState {
  heap : gmap nat (pydict instance);
  logged : list string
}.

(** A computation on the state: [None] when a loop ran out of fuel. *)
Definition Py (A : Type) : Type := state -> option (result A * state).

Definition ret {A : Type} (a : A) : Py A := fun st => Some (Return a, st).

Definition raise {A : Type} (e : exn) : Py A := fun st => Some (Raise e, st).

Definition lift {A : Type} (r : result A) : Py A := fun st => Some (r, st).

Definition bind {A B : Type} (c : Py A) (k : A -> Py B) : Py B :=
  fun st =>
    match c st with
    | Some (Return a, st') => k a st'
    | Some (Raise e, st') => Some (Raise e, st')
    | None => None
    end.

(** [try: c  except E: h] where [handles] tells the instances of [E]. *)
Definition try_except {A : Type} (c : Py A) (handles : exn -> bool) (h : Py A) : Py A :=
  fun st =>
    match c st with
    | Some (Raise e, st') => if handles e then h st' else Some (Raise e, st')
    | other => other
    end.

Declare Scope py_scope.
Delimit Scope py_scope with py.
Notation "x <- c ;; k" := (bind c (fun x => k))
  (at level 100, c at next level, right associativity) : py_scope.
Notation "c ;;; k" := (bind c (fun _ => k))
  (at level 100, right associativity) : py_scope.

Module Store.

(** The dict object behind a reference; a name that is not bound
    raises [NameError]. *)
Definition deref (l : loc) : Py (pydict instance) :=
  fun st =>
    match heap st !! l with
    | Some d => Some (Return d, st)
    | None => Some (Raise NameError, st)
    end.

Definition update (l : loc) (d : pydict instance) : Py unit :=
  fun st => Some (Return tt, mkState (<[l := d]> (heap st)) (logged st)).

(** A new dict object holding [d], at a location not in use. *)
Definition alloc (d : pydict instance) : Py loc :=
  fun st =>
    let l := fresh (dom (heap st)) in
    Some (Return l, mkState (<[l := d]> (heap st)) (logged st)).

(** [l.copy()]: a new dict object with the same items. *)
Definition copy (l : loc) : Py loc :=
  (d <- deref l;; alloc d)%py.

(** [l[k]] *)
Definition getitem (l : loc) (k : string) : Py instance :=
  (d <- deref l;;
   match Dict.get d k with
   | Some v => ret v
   | None => raise (KeyError k)
   end)%py.

(** [l[k] = v] *)
Definition setitem (l : loc) (k : string) (v : instance) : Py unit :=
  (d <- deref l;; update l (Dict.set d k v))%py.

(** [l.pop(k, None)] *)
Definition pop (l : loc) (k : string) : Py (option instance) :=
  (d <- deref l;;
   match Dict.get d k with
   | Some v => update l (Dict.remove d k);;; ret (Some v)
   | None => ret None
   end)%py.

(** [l.popitem()]: [KeyError] on an empty dict. *)
Definition popitem (l : loc) : Py (string * instance) :=
  (d <- deref l;;
   match Dict.popitem d with
   | Some (kv, rest) => update l rest;;; ret kv
   | None => raise (KeyError "popitem(): dictionary is empty")
   end)%py.

(** [list(l)] *)
Definition keys (l : loc) : Py (list string) :=
  (d <- deref l;; ret (Dict.keys d))%py.

End Store.

(** [logger.exception(msg)] *)
Definition logger_exception (msg : string) : Py unit :=
  fun st => Some (Return tt, mkState (heap st) (logged st ++ [msg])).

(** ** [cloudbot/util/web.py] *)

Module web.

Definition DEFAULT_SHORTENER : string := "is.gd".
Definition DEFAULT_PASTEBIN : string := "hastebin".

(** The two registries, bound once when the module is loaded. *)
Definition shorteners : loc := 0%nat.
Definition pastebins : loc := 1%nat.

Definition shorten (w : World) (url : string) (custom key : option string)
    (service : string) : Py pyval :=
  (impl <- Store.getitem shorteners service;;
   lift (call_shorten impl w url custom key))%py.

Definition try_shorten (w : World) (url : string) (custom key : option string)
    (service : string) : Py pyval :=
  (impl <- Store.getitem shorteners service;;
   lift (call_try_shorten impl w url custom key))%py.

(** [for name in shorteners: if name in url: impl = shorteners[name]; break] *)
Fixpoint expand_scan (names : list string) (url : string) : Py (option instance) :=
  match names with
  | [] => ret None
  | name :: names' =>
      if Str.contains name url then
        (impl <- Store.getitem shorteners name;; ret (Some impl))%py
      else expand_scan names' url
  end.

Definition expand_infer (url : string) : Py instance :=
  (names <- Store.keys shorteners;;
   impl <- expand_scan names url;;
   match impl with
   | Some i => ret i
   | None => ret (ShortenerObj Shortener.new)
   end)%py.

Definition expand (w : World) (url : string) (service : option string) : Py pyval :=
  (impl <- match service with
           | Some s => if Str.truthy s then Store.getitem shorteners s
                       else expand_infer url
           | None => expand_infer url
           end;;
   lift (call_expand impl w url))%py.

(** The [while impl:] loop of [paste]; an instance is always true, [None]
    is false. *)
Fixpoint paste_loop (fuel : nat) (w : World) (data ext : string) (bins : loc)
    (impl : option instance) : Py pyval :=
  match impl with
  | None => ret (PyStr "Unable to paste data")
  | Some i =>
      match fuel with
      | O => fun _ => None
      | S fuel' =>
          try_except (lift (call_paste i w data ext)) is_ServiceError
            (logger_exception "Paste failed";;;
             impl' <- try_except
                        (kv <- Store.popitem bins;; ret (Some (snd kv)))
                        is_LookupError
                        (ret None);;
             paste_loop fuel' w data ext bins impl')%py
      end
  end.

(** One turn of the loop for each item of the registry, and one more. *)
Definition paste_fuel (st : state) : nat :=
  S (length (default [] (heap st !! pastebins))).

Definition paste (w : World) (data ext service : string) : Py pyval :=
  fun st =>
    (bins <- Store.copy pastebins;;
     impl <- Store.pop bins service;;
     paste_loop (paste_fuel st) w data ext bins impl)%py st.

(** The decorators: [shorteners[name] = impl()], [pastebins[name] = impl()]. *)
Definition _shortener (name : string) (impl : Shortener.t) : Py unit :=
  Store.setitem shorteners name (ShortenerObj impl).

Definition _pastebin (name : string) (impl : Pastebin.t) : Py unit :=
  Store.setitem pastebins name (PastebinObj impl).

(** [shorteners = {}] and [pastebins = {}] *)
Definition empty_registries : state :=
  mkState (<[pastebins := []]> (<[shorteners := []]> ∅)) [].

(** The decorated classes, in the order of the file. *)
Definition register_all : Py unit :=
  (_shortener "is.gd" Isgd.new;;;
   _shortener "goo.gl" Googl.new;;;
   _shortener "git.io" Gitio.new;;;
   _pastebin "hastebin" Hastebin.new)%py.

(** The state once the module is loaded. *)
Definition loaded : state :=
  match register_all empty_registries with
  | Some (_, st) => st
  | None => empty_registries
  end.

End web.

(** ** [plugins/pagecheck.py] *)

Module pagecheck.

Definition down_mark : string :=
  String "002" (String "003" ("4down" +:+ String "002" (String "015" EmptyString))).

Definition up_mark : string :=
  String "002" (String "003" ("3up" +:+ String "002" (String "015" EmptyString))).

Definition down (w : World) (text : string) : result string :=
  (let text := if negb (Str.contains "://" text) then "http://" +:+ text else text in
   parsed <- urlparse w text;;
   let text := "http://" +:+ p_netloc parsed in
   match (r <- requests.get w text [] true;; requests.raise_for_status r) with
   | Raise e =>
       if is_ConnectionError e then Return (text +:+ " seems to be down")
       else Raise e
   | Return _ => Return (text +:+ " seems to be up")
   end)%result.

Definition isup (w : World) (text : string) : result string :=
  (let url := Str.strip text in
   parts <- urlsplit w url;;
   let auth := netloc parts in
   let domain := if Str.truthy auth then auth else path parts in
   match (response <- requests.get w ("http://isup.me/" +:+ domain) [] true;;
          requests.raise_for_status response;;;
          Return response) with
   | Raise e =>
       if is_ConnectionError e then Return "Failed to get status."
       else Raise e
   | Return response =>
       if negb (status_code response =? requests.codes_ok) then
         Return "Failed to get status."
       else
         match find_div_text w (response_text response) "domain-main-content" with
         | None => Raise AttributeError
         | Some t =>
             let content := Str.strip t in
             if Str.contains "not just you" content then
               Return ("It's not just you. " +:+ url +:+ " looks " +:+ down_mark
                       +:+ " from here!")
             else if Str.contains "is up" content then
               Return ("It's just you. " +:+ url +:+ " is " +:+ up_mark +:+ ".")
             else
               Return "Huh? That doesn't look like a site on the interweb."
         end
   end)%result.

End pagecheck.

(** ** Sample worlds and registries

    Concrete inputs for the examples below. The worlds answer the input
    [example.com] the way [urllib.parse] does: [urlsplit("example.com")]
    has an empty [netloc] and the path [example.com],
    [urlparse("http://example.com")] has the [netloc] [example.com]. *)

Module Sample.

(** A world where every request gets the answer [r] and where the
    status page holds the element text [div]. *)
Definition world (r : result Response) (div : option string) : World :=
  mkWorld (fun _ => r)
          (fun _ => Return (mkSplit EmptyString EmptyString "example.com"
                                    EmptyString EmptyString))
          (fun _ => Return (mkParse "http" "example.com" EmptyString
                                    EmptyString EmptyString EmptyString))
          (fun _ _ => div).

Definition server_error : Response :=
  mkResponse 500 "Internal Server Error" [] "down for maintenance" None.

Definition not_found : Response :=
  mkResponse 404 "Not Found" [] "no such page" None.

Definition not_modified : Response :=
  mkResponse 304 "Not Modified" [] EmptyString None.

Definition page : Response :=
  mkResponse 200 "OK" [] "<html>...</html>" None.

Definition stored : Response :=
  mkResponse 200 "OK" [] "{...}" (Some (PyDict [("key", PyStr "abc")])).

(** The answers of git.io to a request for the code [cb]: the code was
    free, or the URL already had another code. *)
Definition created : Response :=
  mkResponse 201 "Created" [("Location", "https://git.io/cb")] EmptyString None.

Definition created_other : Response :=
  mkResponse 201 "Created" [("Location", "https://git.io/vX3")] EmptyString None.

(** is.gd refuses a URL: status 200 and an error in the body. *)
Definition isgd_refused : Response :=
  mkResponse 200 "OK" [] "{...}"
    (Some (PyDict [("errorcode", PyInt 1);
                   ("errormessage", PyStr "Please enter a valid URL")])).

(** goo.gl knows the short URL. *)
Definition googl_found : Response :=
  mkResponse 200 "OK" [] "{...}"
    (Some (PyDict [("id", PyStr "http://goo.gl/fbsS");
                   ("longUrl", PyStr "http://www.google.com/")])).

(** A short URL that redirects. *)
Definition moved : Response :=
  mkResponse 301 "Moved Permanently" [("Location", "http://example.com/long")]
    EmptyString None.

(** hastebin answers with a status that is not 200 and a message. *)
Definition haste_message : Response :=
  mkResponse 201 "Created" [] "{...}"
    (Some (PyDict [("message", PyStr "Document too long")])).

(** git.io answers 201 without a [location] header. *)
Definition created_bare : Response :=
  mkResponse 201 "Created" [] EmptyString None.

(** Every server answers with an error page. *)
Definition failing : World := world (Return server_error) None.

(** Every server accepts. *)
Definition accepting : World := world (Return stored) None.

(** No server can be reached. *)
Definition unreachable : World := world (Raise ConnectionError) None.

(** A pastebin class whose [paste] always ends the same way. *)
Definition fixed_paste (r : result pyval) : Pastebin.t :=
  Pastebin.class (fun _ _ _ => r).

Definition state_after (c : Py unit) : state :=
  match c web.empty_registries with
  | Some (_, st) => st
  | None => web.empty_registries
  end.

(** [hastebin] registered after a second pastebin that works. *)
Definition with_spare : state :=
  state_after
    (web._pastebin "spare" (fixed_paste (Return (PyStr "https://spare.example/1")));;;
     web._pastebin "hastebin" Hastebin.new)%py.

(** Between the two, a pastebin whose server cannot be reached. *)
Definition with_offline : state :=
  state_after
    (web._pastebin "spare" (fixed_paste (Return (PyStr "https://spare.example/1")));;;
     web._pastebin "offline" (fixed_paste (Raise ConnectionError));;;
     web._pastebin "hastebin" Hastebin.new)%py.

(** Four pastebins: [first] and [spare] work, [full] refuses what it is
    sent, [hastebin] is registered last. *)
Definition with_full : state :=
  state_after
    (web._pastebin "first" (fixed_paste (Return (PyStr "https://first.example/1")));;;
     web._pastebin "spare" (fixed_paste (Return (PyStr "https://spare.example/1")));;;
     web._pastebin "full"
       (fixed_paste (Raise (ServiceError (PyStr "Document too long") haste_message)));;;
     web._pastebin "hastebin" Hastebin.new)%py.

(** The status page answers 200 with a page that has the words of a
    verdict but not the element that [isup] looks for. *)
Definition plain_page : Response :=
  mkResponse 200 "OK" [] "<html><body>example.com is up</body></html>" None.

End Sample.

(** * Properties *)

(** ** Substrings *)

Section Substring.

Lemma append_cons (c : ascii) (a b : string) :
  String c a +:+ b = String c (a +:+ b).
Proof. reflexivity. Qed.

Lemma append_nil_l (b : string) : EmptyString +:+ b = b.
Proof. reflexivity. Qed.

Lemma prefix_append (n b : string) : String.prefix n (n +:+ b) = true.
Proof.
  induction n as [|c n IH].
  - destruct b; reflexivity.
  - rewrite append_cons. simpl.
    destruct (ascii_dec c c) as [_|Hc]; [exact IH | congruence].
Qed.

Lemma prefix_split (n h : string) :
  String.prefix n h = true -> exists b, h = n +:+ b.
Proof.
  revert h. induction n as [|c n IH]; intros h H.
  - exists h. reflexivity.
  - destruct h as [|c' h]; simpl in H; [discriminate|].
    destruct (ascii_dec c c') as [->|_]; [|discriminate].
    destruct (IH h H) as [b ->]. exists b. reflexivity.
Qed.

Lemma contains_here (n h : string) :
  String.prefix n h = true -> Str.contains n h = true.
Proof. intros H. destruct h; cbn [Str.contains]; rewrite H; reflexivity. Qed.

Lemma contains_later (n : string) (c : ascii) (h : string) :
  Str.contains n h = true -> Str.contains n (String c h) = true.
Proof. intros H. cbn [Str.contains]. rewrite H. apply orb_true_r. Qed.

(** A needle framed by any two strings is found. *)
Lemma contains_infix (n a b : string) : Str.contains n (a +:+ n +:+ b) = true.
Proof.
  induction a as [|c a IH].
  - rewrite append_nil_l. apply contains_here, prefix_append.
  - rewrite append_cons. apply contains_later, IH.
Qed.

(** What the end of a string contains, the string contains. *)
Lemma contains_append_l (n a b : string) :
  Str.contains n b = true -> Str.contains n (a +:+ b) = true.
Proof.
  intros H. induction a as [|c a IH].
  - exact H.
  - rewrite append_cons. apply contains_later, IH.
Qed.

(** [Str.contains] is the substring relation. *)
Lemma contains_spec (n h : string) :
  Str.contains n h = true <-> exists a b, h = a +:+ n +:+ b.
Proof.
  split.
  - induction h as [|c h IH]; cbn [Str.contains]; intros H.
    + rewrite orb_false_r in H. destruct (prefix_split _ _ H) as [b Hb].
      exists EmptyString, b. exact Hb.
    + apply orb_true_iff in H as [H|H].
      * destruct (prefix_split _ _ H) as [b Hb].
        exists EmptyString, b. exact Hb.
      * destruct (IH H) as (a & b & ->).
        exists (String c a), b. reflexivity.
  - intros (a & b & ->). apply contains_infix.
Qed.

End Substring.

(** ** Dicts *)

Section DictFacts.
Context {V : Type}.
Implicit Types (d : pydict V) (k : string) (v : V).

Lemma popitem_last d k v : Dict.popitem (d ++ [(k, v)]) = Some ((k, v), d).
Proof.
  induction d as [|kv d IH]; simpl.
  - reflexivity.
  - rewrite IH. reflexivity.
Qed.

Lemma popitem_length d kv rest :
  Dict.popitem d = Some (kv, rest) -> length d = S (length rest).
Proof.
  revert kv rest. induction d as [|x d IH]; simpl; intros kv rest H.
  - discriminate.
  - destruct (Dict.popitem d) as [[l r]|] eqn:E.
    + inversion H; subst. simpl. f_equal. eapply IH. reflexivity.
    + inversion H; subst. destruct d; [reflexivity|].
      simpl in E. destruct (Dict.popitem d) as [[? ?]|]; discriminate.
Qed.

Lemma get_In d k v : Dict.get d k = Some v -> In (k, v) d.
Proof.
  induction d as [|[k' v'] d IH]; simpl; intros H.
  - discriminate.
  - destruct (String.eqb_spec k k') as [->|_].
    + inversion H. left. reflexivity.
    + right. apply IH, H.
Qed.

Lemma get_None_not_key d k : Dict.get d k = None -> ~ In k (Dict.keys d).
Proof.
  induction d as [|[k' v'] d IH]; simpl; intros H.
  - tauto.
  - destruct (String.eqb_spec k k') as [->|Hne]; [discriminate|].
    intros [Heq|Hin]; [congruence | exact (IH H Hin)].
Qed.

Lemma remove_In d k k' v : In (k', v) (Dict.remove d k) -> In (k', v) d.
Proof.
  induction d as [|[k0 v0] d IH]; simpl; intros H.
  - exact H.
  - destruct (String.eqb k k0).
    + right. exact H.
    + destruct H as [H|H]; [left; exact H | right; apply IH, H].
Qed.

Lemma remove_length d k v :
  Dict.get d k = Some v -> length d = S (length (Dict.remove d k)).
Proof.
  induction d as [|[k0 v0] d IH]; simpl; intros H.
  - discriminate.
  - destruct (String.eqb k k0); [reflexivity|].
    simpl. f_equal. apply IH, H.
Qed.

Lemma remove_absent d k : Dict.get d k = None -> Dict.remove d k = d.
Proof.
  induction d as [|[k0 v0] d IH]; simpl; intros H.
  - reflexivity.
  - destruct (String.eqb k k0); [discriminate|]. f_equal. apply IH, H.
Qed.

(** The operations keep the keys distinct. *)
Lemma keys_set_absent d k v :
  Dict.get d k = None -> Dict.keys (Dict.set d k v) = Dict.keys d ++ [k].
Proof.
  induction d as [|[k0 v0] d IH]; simpl; intros H.
  - reflexivity.
  - destruct (String.eqb k k0); [discriminate|]. simpl. f_equal. apply IH, H.
Qed.

Lemma keys_set_present d k v v0 :
  Dict.get d k = Some v0 -> Dict.keys (Dict.set d k v) = Dict.keys d.
Proof.
  induction d as [|[k1 v1] d IH]; simpl; intros H.
  - discriminate.
  - destruct (String.eqb k k1); [reflexivity|]. simpl. f_equal. apply IH, H.
Qed.

Lemma set_wf d k v : Dict.wf d -> Dict.wf (Dict.set d k v).
Proof.
  unfold Dict.wf. intros Hd.
  destruct (Dict.get d k) as [v0|] eqn:E.
  - rewrite (keys_set_present _ _ _ _ E). exact Hd.
  - rewrite (keys_set_absent _ _ _ E).
    apply NoDup_app. split; [exact Hd|]. split.
    + intros x Hx Hk. apply list_elem_of_In in Hx.
      apply list_elem_of_In in Hk. simpl in Hk. destruct Hk as [<-|[]].
      exact (get_None_not_key _ _ E Hx).
    + apply NoDup_singleton.
Qed.

End DictFacts.

(** ** The store *)

Section StoreFacts.
Implicit Types (st : state) (l : loc) (d : pydict instance).

Lemma fresh_unbound st : heap st !! fresh (dom (heap st)) = None.
Proof. apply not_elem_of_dom, is_fresh. Qed.

Lemma fresh_other st l d : heap st !! l = Some d -> fresh (dom (heap st)) <> l.
Proof. intros H E. rewrite <- E, fresh_unbound in H. discriminate. Qed.

Lemma copy_bound st l d :
  heap st !! l = Some d ->
  Store.copy l st =
    Some (Return (fresh (dom (heap st))),
          mkState (<[fresh (dom (heap st)) := d]> (heap st)) (logged st)).
Proof. intros H. unfold Store.copy, bind, Store.deref, Store.alloc. rewrite H. reflexivity. Qed.

Lemma copy_unbound st l :
  heap st !! l = None -> Store.copy l st = Some (Raise NameError, st).
Proof. intros H. unfold Store.copy, bind, Store.deref. rewrite H. reflexivity. Qed.

Lemma pop_present st l d k v :
  heap st !! l = Some d -> Dict.get d k = Some v ->
  Store.pop l k st =
    Some (Return (Some v), mkState (<[l := Dict.remove d k]> (heap st)) (logged st)).
Proof.
  intros H G. unfold Store.pop, bind, Store.deref. rewrite H, G. reflexivity.
Qed.

Lemma pop_absent st l d k :
  heap st !! l = Some d -> Dict.get d k = None ->
  Store.pop l k st = Some (Return None, st).
Proof.
  intros H G. unfold Store.pop, bind, Store.deref. rewrite H, G. reflexivity.
Qed.

Lemma getitem_present st l d k v :
  heap st !! l = Some d -> Dict.get d k = Some v ->
  Store.getitem l k st = Some (Return v, st).
Proof.
  intros H G. unfold Store.getitem, bind, Store.deref. rewrite H, G. reflexivity.
Qed.

End StoreFacts.

(** ** One turn of the loop of [paste] *)

Section PasteLoop.
Variables (w : World) (data ext : string) (bins : loc).
Implicit Types (st : state) (i j : instance) (d : pydict instance).

(** The turn, with the monad unfolded. *)
Lemma paste_loop_turn fuel i st :
  web.paste_loop (S fuel) w data ext bins (Some i) st =
  match call_paste i w data ext with
  | Return v => Some (Return v, st)
  | Raise e =>
      if is_ServiceError e then
        let st1 := mkState (heap st) (logged st ++ ["Paste failed"]) in
        match heap st !! bins with
        | None => Some (Raise NameError, st1)
        | Some d =>
            match Dict.popitem d with
            | Some (kv, rest) =>
                web.paste_loop fuel w data ext bins (Some (snd kv))
                  (mkState (<[bins := rest]> (heap st)) (logged st ++ ["Paste failed"]))
            | None => Some (Return (PyStr "Unable to paste data"), st1)
            end
        end
      else Some (Raise e, st)
  end.
Proof.
  cbn [web.paste_loop].
  unfold try_except at 1. unfold lift at 1.
  destruct (call_paste i w data ext) as [v|e]; [reflexivity|].
  destruct (is_ServiceError e); [|reflexivity].
  unfold bind at 1. unfold logger_exception at 1.
  unfold bind at 1. unfold try_except at 1. unfold bind at 1.
  unfold Store.popitem, bind, Store.deref. cbn [heap logged].
  destruct (heap st !! bins) as [d|]; [|reflexivity].
  destruct (Dict.popitem d) as [[kv rest]|]; cbn.
  - reflexivity.
  - destruct fuel; reflexivity.
Qed.

Lemma paste_loop_return fuel i v st :
  call_paste i w data ext = Return v ->
  web.paste_loop (S fuel) w data ext bins (Some i) st = Some (Return v, st).
Proof. intros H. rewrite paste_loop_turn, H. reflexivity. Qed.

Lemma paste_loop_raise fuel i e st :
  call_paste i w data ext = Raise e -> is_ServiceError e = false ->
  web.paste_loop (S fuel) w data ext bins (Some i) st = Some (Raise e, st).
Proof. intros H He. rewrite paste_loop_turn, H, He. reflexivity. Qed.

Lemma paste_loop_next fuel i e st d k j :
  call_paste i w data ext = Raise e -> is_ServiceError e = true ->
  heap st !! bins = Some (d ++ [(k, j)]) ->
  web.paste_loop (S fuel) w data ext bins (Some i) st =
  web.paste_loop fuel w data ext bins (Some j)
    (mkState (<[bins := d]> (heap st)) (logged st ++ ["Paste failed"])).
Proof.
  intros H He Hb. rewrite paste_loop_turn, H, He. cbn zeta.
  rewrite Hb, popitem_last. reflexivity.
Qed.

Lemma paste_loop_last fuel i e st :
  call_paste i w data ext = Raise e -> is_ServiceError e = true ->
  heap st !! bins = Some [] ->
  web.paste_loop (S fuel) w data ext bins (Some i) st =
  Some (Return (PyStr "Unable to paste data"),
        mkState (heap st) (logged st ++ ["Paste failed"])).
Proof. intros H He Hb. rewrite paste_loop_turn, H, He. cbn zeta. rewrite Hb. reflexivity. Qed.

(** Fuel above the size of [bins] is enough. *)
Lemma paste_loop_total fuel : forall st impl,
  (length (default [] (heap st !! bins)) < fuel)%nat ->
  is_Some (web.paste_loop fuel w data ext bins impl st).
Proof.
  induction fuel as [|fuel IH]; intros st impl Hlen; [lia|].
  destruct impl as [i|]; [|eexists; reflexivity].
  rewrite paste_loop_turn.
  destruct (call_paste i w data ext) as [v|e]; [eexists; reflexivity|].
  destruct (is_ServiceError e); [|eexists; reflexivity].
  cbn zeta. destruct (heap st !! bins) as [d|] eqn:Hb; [|eexists; reflexivity].
  destruct (Dict.popitem d) as [[kv rest]|] eqn:Hp; [|eexists; reflexivity].
  apply IH. cbn [heap]. rewrite lookup_insert_eq. cbn.
  apply popitem_length in Hp. cbn in Hlen. lia.
Qed.

(** The loop writes to [bins] and to nothing else. *)
Lemma paste_loop_frame fuel : forall st impl r st' l,
  web.paste_loop fuel w data ext bins impl st = Some (r, st') ->
  l <> bins -> heap st' !! l = heap st !! l.
Proof.
  induction fuel as [|fuel IH]; intros st impl r st' l Hrun Hl.
  - destruct impl; cbn in Hrun; [discriminate|]. inversion Hrun. reflexivity.
  - destruct impl as [i|]; [|inversion Hrun; reflexivity].
    rewrite paste_loop_turn in Hrun.
    destruct (call_paste i w data ext) as [v|e]; [inversion Hrun; reflexivity|].
    destruct (is_ServiceError e); [|inversion Hrun; reflexivity].
    cbn zeta in Hrun.
    destruct (heap st !! bins) as [d|]; [|inversion Hrun; reflexivity].
    destruct (Dict.popitem d) as [[kv rest]|]; [|inversion Hrun; reflexivity].
    rewrite (IH _ _ _ _ l Hrun Hl). cbn [heap].
    apply lookup_insert_ne. congruence.
Qed.

End PasteLoop.

(** ** [paste]: where the loop starts, and what it does on failures *)

Section Paste.
Variables (w : World) (data ext : string).
Implicit Types (st : state) (i j : instance) (reg d : pydict instance).

Lemma raises_ServiceError_inv i :
  raises_ServiceError (call_paste i w data ext) ->
  exists e, call_paste i w data ext = Raise e /\ is_ServiceError e = true.
Proof. intros (m & q & H). eexists. split; [exact H | reflexivity]. Qed.

(** [bins] is a new object holding the registry without [service]. *)
Lemma paste_start st reg service :
  heap st !! web.pastebins = Some reg ->
  web.paste w data ext service st =
  web.paste_loop (S (length reg)) w data ext (fresh (dom (heap st)))
    (Dict.get reg service)
    (mkState (<[fresh (dom (heap st)) := Dict.remove reg service]> (heap st))
             (logged st)).
Proof.
  intros Hreg. unfold web.paste, web.paste_fuel. rewrite Hreg. cbn [default].
  unfold bind at 1. rewrite (copy_bound _ _ _ Hreg).
  unfold bind at 1.
  destruct (Dict.get reg service) as [i|] eqn:G.
  - erewrite pop_present; [|cbn [heap]; apply lookup_insert_eq | exact G].
    cbn [heap logged]. rewrite insert_insert_eq. reflexivity.
  - erewrite pop_absent; [|cbn [heap]; apply lookup_insert_eq | exact G].
    rewrite (remove_absent _ _ G). reflexivity.
Qed.

(** When every backend fails, the loop empties [bins] and gives up. *)
Lemma paste_loop_all_fail bins : forall d fuel st i,
  heap st !! bins = Some d -> (length d < fuel)%nat ->
  raises_ServiceError (call_paste i w data ext) ->
  (forall k j, In (k, j) d -> raises_ServiceError (call_paste j w data ext)) ->
  exists st',
    web.paste_loop fuel w data ext bins (Some i) st =
      Some (Return (PyStr "Unable to paste data"), st')
    /\ logged st' = logged st ++ replicate (S (length d)) "Paste failed".
Proof.
  induction d as [|[k j] d IH] using rev_ind; intros fuel st i Hb Hlen Hi Hall.
  - destruct fuel as [|fuel]; [cbn in Hlen; lia|].
    destruct (raises_ServiceError_inv i Hi) as (e & He & Hs).
    rewrite (paste_loop_last _ _ _ _ _ _ _ _ He Hs Hb).
    eexists. split; reflexivity.
  - rewrite length_app in Hlen. cbn in Hlen.
    destruct fuel as [|fuel]; [lia|].
    destruct (raises_ServiceError_inv i Hi) as (e & He & Hs).
    rewrite (paste_loop_next _ _ _ _ _ _ _ _ _ _ _ He Hs Hb).
    edestruct (IH fuel (mkState (<[bins := d]> (heap st))
                                (logged st ++ ["Paste failed"])) j)
      as (st' & Hrun & Hlog);
      [cbn [heap]; apply lookup_insert_eq | lia
      | apply (Hall k j), in_or_app; right; left; reflexivity
      | intros k' j' Hin; apply (Hall k' j'), in_or_app; left; exact Hin |].
    exists st'. split; [exact Hrun|].
    rewrite Hlog. cbn [logged]. rewrite length_app. cbn [length].
    rewrite Nat.add_1_r, <- app_assoc. reflexivity.
Qed.

(** [paste] never runs out of fuel. *)
Lemma paste_total service st : is_Some (web.paste w data ext service st).
Proof.
  destruct (heap st !! web.pastebins) as [reg|] eqn:Hreg.
  - rewrite (paste_start _ _ _ Hreg). apply paste_loop_total.
    cbn [heap]. rewrite lookup_insert_eq. cbn [default from_option id].
    destruct (Dict.get reg service) as [i|] eqn:G.
    + rewrite (remove_length _ _ _ G). lia.
    + rewrite (remove_absent _ _ G). lia.
  - unfold web.paste. unfold bind at 1. rewrite (copy_unbound _ _ Hreg).
    eexists. reflexivity.
Qed.

End Paste.

(** ** [paste]: where the fallback stops *)

Section PasteFallback.
Variables (w : World) (data ext : string).
Implicit Types (st : state) (i j : instance) (d : pydict instance).

(** After a failure, the loop takes the items of [bins] from the last one
    backwards, logs one line for each [ServiceError], and stops at the
    first item whose [paste] does not raise [ServiceError], with the
    outcome of that [paste]: a value or an exception. *)
Lemma paste_loop_stops_at bins pre n b : forall post fuel st i,
  heap st !! bins = Some (pre ++ (n, b) :: post) ->
  (length (pre ++ (n, b) :: post) < fuel)%nat ->
  raises_ServiceError (call_paste i w data ext) ->
  (forall k j, In (k, j) post -> raises_ServiceError (call_paste j w data ext)) ->
  ~ raises_ServiceError (call_paste b w data ext) ->
  exists st',
    web.paste_loop fuel w data ext bins (Some i) st
      = Some (call_paste b w data ext, st')
    /\ logged st' = logged st ++ replicate (S (length post)) "Paste failed".
Proof.
  induction post as [|[k j] post IH] using rev_ind; intros fuel st i Hb Hlen Hi Hall Hok.
  - rewrite length_app in Hlen. cbn in Hlen.
    destruct fuel as [|[|fuel]]; [lia | lia |].
    destruct (raises_ServiceError_inv w data ext i Hi) as (e & He & Hs).
    rewrite (paste_loop_next _ _ _ _ _ _ _ _ _ _ _ He Hs Hb).
    destruct (call_paste b w data ext) as [v|e'] eqn:Hcall.
    + rewrite (paste_loop_return _ _ _ _ _ _ _ _ Hcall). eexists. split; reflexivity.
    + destruct (is_ServiceError e') eqn:Hs'.
      * exfalso. apply Hok. destruct e'; try discriminate. do 2 eexists. reflexivity.
      * rewrite (paste_loop_raise _ _ _ _ _ _ _ _ Hcall Hs'). eexists.
        split; reflexivity.
  - assert (Hsplit : pre ++ (n, b) :: post ++ [(k, j)]
                     = (pre ++ (n, b) :: post) ++ [(k, j)])
      by (rewrite <- app_assoc; reflexivity).
    rewrite Hsplit in Hb, Hlen. rewrite length_app in Hlen. cbn [length] in Hlen.
    destruct fuel as [|fuel]; [lia|].
    destruct (raises_ServiceError_inv w data ext i Hi) as (e & He & Hs).
    rewrite (paste_loop_next _ _ _ _ _ _ _ _ _ _ _ He Hs Hb).
    destruct (IH fuel (mkState (<[bins := pre ++ (n, b) :: post]> (heap st))
                               (logged st ++ ["Paste failed"])) j)
      as (st' & Hrun & Hlog).
    + cbn [heap]. apply lookup_insert_eq.
    + lia.
    + apply (Hall k j), in_or_app. right. left. reflexivity.
    + intros k' j' Hin. apply (Hall k' j'), in_or_app. left. exact Hin.
    + exact Hok.
    + exists st'. split; [exact Hrun|].
      rewrite Hlog. cbn [logged]. rewrite length_app. cbn [length].
      rewrite Nat.add_1_r, <- app_assoc. reflexivity.
Qed.

End PasteFallback.

(** ** The registries once the module is loaded *)

Lemma loaded_shorteners :
  heap web.loaded !! web.shorteners =
    Some [("is.gd", ShortenerObj Isgd.new); ("goo.gl", ShortenerObj Googl.new);
          ("git.io", ShortenerObj Gitio.new)].
Proof. reflexivity. Qed.

Lemma loaded_pastebins :
  heap web.loaded !! web.pastebins = Some [("hastebin", PastebinObj Hastebin.new)].
Proof. reflexivity. Qed.

Lemma with_spare_pastebins :
  heap Sample.with_spare !! web.pastebins =
    Some [("spare", PastebinObj (Sample.fixed_paste (Return (PyStr "https://spare.example/1"))));
          ("hastebin", PastebinObj Hastebin.new)].
Proof. reflexivity. Qed.

Lemma with_offline_pastebins :
  heap Sample.with_offline !! web.pastebins =
    Some [("spare", PastebinObj (Sample.fixed_paste (Return (PyStr "https://spare.example/1"))));
          ("offline", PastebinObj (Sample.fixed_paste (Raise ConnectionError)));
          ("hastebin", PastebinObj Hastebin.new)].
Proof. reflexivity. Qed.

Lemma with_full_pastebins :
  heap Sample.with_full !! web.pastebins =
    Some [("first", PastebinObj (Sample.fixed_paste (Return (PyStr "https://first.example/1"))));
          ("spare", PastebinObj (Sample.fixed_paste (Return (PyStr "https://spare.example/1"))));
          ("full", PastebinObj (Sample.fixed_paste
                                  (Raise (ServiceError (PyStr "Document too long")
                                            Sample.haste_message))));
          ("hastebin", PastebinObj Hastebin.new)].
Proof. reflexivity. Qed.

(** The registration keeps the names distinct, whatever the order and the
    number of decorated classes. *)
Lemma _pastebin_wf name impl st reg :
  heap st !! web.pastebins = Some reg -> Dict.wf reg ->
  exists st', web._pastebin name impl st = Some (Return tt, st')
    /\ heap st' !! web.pastebins = Some (Dict.set reg name (PastebinObj impl))
    /\ Dict.wf (Dict.set reg name (PastebinObj impl)).
Proof.
  intros Hreg Hwf. unfold web._pastebin, Store.setitem, bind, Store.deref.
  rewrite Hreg. eexists. split; [reflexivity|]. split.
  - cbn [heap]. apply lookup_insert_eq.
  - apply set_wf, Hwf.
Qed.

(** An alias instead of the copy would empty the registry itself. *)
Lemma pop_through_alias :
  exists st', Store.pop web.pastebins "hastebin" web.loaded
                = Some (Return (Some (PastebinObj Hastebin.new)), st')
    /\ heap st' !! web.pastebins = Some [].
Proof. eexists. split; reflexivity. Qed.

(** ** The claims on [paste] *)

(** C1. When the [paste] of every registered pastebin raises
    [ServiceError], [paste(data, ext)] returns the string
    ["Unable to paste data"] and raises nothing. This holds for the
    default service, [hastebin], and for any other [service]. *)
Theorem paste_all_backends_fail (w : World) (data ext service : string)
    (st : state) (reg : pydict instance) :
  heap st !! web.pastebins = Some reg ->
  (forall k j, In (k, j) reg -> raises_ServiceError (call_paste j w data ext)) ->
  exists st',
    web.paste w data ext service st = Some (Return (PyStr "Unable to paste data"), st').
Proof.
  intros Hreg Hall. rewrite (paste_start _ _ _ _ _ _ Hreg).
  destruct (Dict.get reg service) as [i|] eqn:G.
  - edestruct (paste_loop_all_fail w data ext (fresh (dom (heap st)))
                 (Dict.remove reg service) (S (length reg))
                 (mkState (<[fresh (dom (heap st)) := Dict.remove reg service]> (heap st))
                          (logged st)) i) as (st' & Hrun & _);
      [cbn [heap]; apply lookup_insert_eq
      | rewrite (remove_length _ _ _ G); lia
      | apply (Hall service i), get_In, G
      | intros k j Hin; apply (Hall k j); eapply remove_In, Hin
      | exists st'; exact Hrun].
  - eexists. reflexivity.
Qed.

Lemma paste_all_backends_fail_witness :
  heap web.loaded !! web.pastebins = Some [("hastebin", PastebinObj Hastebin.new)]
  /\ (forall k j, In (k, j) [("hastebin", PastebinObj Hastebin.new)] ->
      raises_ServiceError (call_paste j Sample.failing "data" "txt"))
  /\ exists st',
       web.paste Sample.failing "data" "txt" web.DEFAULT_PASTEBIN web.loaded
         = Some (Return (PyStr "Unable to paste data"), st').
Proof.
  assert (Hall : forall k j, In (k, j) [("hastebin", PastebinObj Hastebin.new)] ->
                 raises_ServiceError (call_paste j Sample.failing "data" "txt")).
  { intros k j [H|[]]. inversion H; subst. do 2 eexists. vm_compute. reflexivity. }
  split; [exact loaded_pastebins|]. split; [exact Hall|].
  exact (paste_all_backends_fail Sample.failing "data" "txt" web.DEFAULT_PASTEBIN
           web.loaded _ loaded_pastebins Hall).
Defined.

(** C2, as the code has it. When the requested pastebin [X] raises
    [ServiceError], the fallback takes the other registered pastebins from
    the one registered last backwards, and [paste(data, ext, service=X)]
    ends as the first of them that does not raise [ServiceError]: it
    returns the URL of that pastebin when its [paste] returns one, and it
    raises the exception of that pastebin when its [paste] raises one,
    whatever the pastebins registered before it would do. Here [(n, b)] is
    that pastebin, [post] are the ones registered after it and [pre] the
    ones registered before it. One line is logged for [X] and one for each
    pastebin of [post]. *)
Theorem paste_fallback_outcome (w : World) (data ext X : string)
    (st : state) (reg pre post : pydict instance) (ix b : instance) (n : string) :
  heap st !! web.pastebins = Some reg ->
  Dict.get reg X = Some ix ->
  raises_ServiceError (call_paste ix w data ext) ->
  Dict.remove reg X = pre ++ (n, b) :: post ->
  (forall k j, In (k, j) post -> raises_ServiceError (call_paste j w data ext)) ->
  ~ raises_ServiceError (call_paste b w data ext) ->
  exists st',
    web.paste w data ext X st = Some (call_paste b w data ext, st')
    /\ (forall u, call_paste b w data ext = Return u ->
        web.paste w data ext X st = Some (Return u, st'))
    /\ (forall e, call_paste b w data ext = Raise e ->
        web.paste w data ext X st = Some (Raise e, st'))
    /\ logged st' = logged st ++ replicate (S (length post)) "Paste failed".
Proof.
  intros Hreg G Hx Hsplit Hpost Hb. rewrite (paste_start _ _ _ _ _ _ Hreg), G.
  destruct (paste_loop_stops_at w data ext (fresh (dom (heap st))) pre n b post
              (S (length reg))
              (mkState (<[fresh (dom (heap st)) := Dict.remove reg X]> (heap st))
                       (logged st)) ix) as (st' & Hrun & Hlog).
  - cbn [heap]. rewrite lookup_insert_eq, Hsplit. reflexivity.
  - rewrite <- Hsplit, (remove_length _ _ _ G). lia.
  - exact Hx.
  - exact Hpost.
  - exact Hb.
  - exists st'. split; [exact Hrun|]. split; [|split].
    + intros u Hu. rewrite Hrun, Hu. reflexivity.
    + intros e He. rewrite Hrun, He. reflexivity.
    + exact Hlog.
Qed.

(** In the first registry [full], registered after [spare], is tried and
    fails before [spare] answers, and [first] is not reached. In the
    second [offline] is the first pastebin that does not raise
    [ServiceError]: its [ConnectionError] leaves [paste], and [spare],
    registered before it, is not reached. *)
Lemma paste_fallback_outcome_witness :
  (exists st',
     web.paste Sample.failing "data" "txt" "hastebin" Sample.with_full
       = Some (Return (PyStr "https://spare.example/1"), st')
     /\ logged st' = logged Sample.with_full ++ ["Paste failed"; "Paste failed"])
  /\ (exists st',
        web.paste Sample.failing "data" "txt" "hastebin" Sample.with_offline
          = Some (Raise ConnectionError, st')
        /\ logged st' = logged Sample.with_offline ++ ["Paste failed"]).
Proof.
  split.
  - destruct (paste_fallback_outcome Sample.failing "data" "txt" "hastebin"
                Sample.with_full _
                [("first", PastebinObj (Sample.fixed_paste
                                          (Return (PyStr "https://first.example/1"))))]
                [("full", PastebinObj (Sample.fixed_paste
                                         (Raise (ServiceError (PyStr "Document too long")
                                                   Sample.haste_message))))]
                (PastebinObj Hastebin.new)
                (PastebinObj (Sample.fixed_paste
                                (Return (PyStr "https://spare.example/1"))))
                "spare" with_full_pastebins eq_refl)
      as (st' & _ & Hret & _ & Hlog).
    + do 2 eexists. reflexivity.
    + reflexivity.
    + intros k j [H|[]]. inversion H; subst. do 2 eexists. reflexivity.
    + intros (m & q & H). discriminate.
    + exists st'. split; [apply Hret; reflexivity | exact Hlog].
  - destruct (paste_fallback_outcome Sample.failing "data" "txt" "hastebin"
                Sample.with_offline _
                [("spare", PastebinObj (Sample.fixed_paste
                                          (Return (PyStr "https://spare.example/1"))))]
                []
                (PastebinObj Hastebin.new)
                (PastebinObj (Sample.fixed_paste (Raise ConnectionError)))
                "offline" with_offline_pastebins eq_refl)
      as (st' & _ & _ & Hraise & Hlog).
    + do 2 eexists. reflexivity.
    + reflexivity.
    + intros k j [].
    + intros (m & q & H). discriminate.
    + exists st'. split; [apply Hraise; reflexivity | exact Hlog].
Defined.

(** C2 as stated fails: [hastebin] raises [ServiceError] and [spare], another
    registered pastebin, would return a URL, but the pastebin tried in
    between cannot reach its server, and that [ConnectionError] leaves
    [paste]. *)
Lemma paste_fallback_counterexample :
  Dict.get [("spare", PastebinObj (Sample.fixed_paste (Return (PyStr "https://spare.example/1"))));
            ("offline", PastebinObj (Sample.fixed_paste (Raise ConnectionError)));
            ("hastebin", PastebinObj Hastebin.new)] "hastebin"
    = Some (PastebinObj Hastebin.new)
  /\ raises_ServiceError (call_paste (PastebinObj Hastebin.new) Sample.failing "data" "txt")
  /\ call_paste (PastebinObj (Sample.fixed_paste (Return (PyStr "https://spare.example/1"))))
       Sample.failing "data" "txt" = Return (PyStr "https://spare.example/1")
  /\ (exists st',
        web.paste Sample.failing "data" "txt" "hastebin" Sample.with_offline
          = Some (Raise ConnectionError, st'))
  /\ ~ (exists u st',
          web.paste Sample.failing "data" "txt" "hastebin" Sample.with_offline
            = Some (Return u, st')).
Proof.
  split; [reflexivity|].
  split; [do 2 eexists; vm_compute; reflexivity|].
  split; [reflexivity|].
  assert (Hrun : exists st',
            web.paste Sample.failing "data" "txt" "hastebin" Sample.with_offline
              = Some (Raise ConnectionError, st')).
  { rewrite (paste_start _ _ _ _ _ _ with_offline_pastebins).
    cbn [Dict.get Dict.remove String.eqb Ascii.eqb Bool.eqb length].
    erewrite paste_loop_next with (d := [_]) (k := "offline");
      [| vm_compute; reflexivity | reflexivity
       | cbn [heap]; rewrite lookup_insert_eq; reflexivity].
    erewrite paste_loop_raise; [| reflexivity | reflexivity].
    eexists. reflexivity. }
  split; [exact Hrun|].
  destruct Hrun as (st1 & Hrun). intros (u & st' & H).
  rewrite Hrun in H. discriminate.
Qed.

(** C9, as the code has it. For a [service] name that is not in the
    pastebin registry, [paste(data, ext, service)] raises nothing, calls
    no backend and logs nothing: [impl] is [None], the loop is not entered,
    and the result is ["Unable to paste data"] whatever the registered
    pastebins would do. *)
Theorem paste_unknown_service (w : World) (data ext service : string)
    (st : state) (reg : pydict instance) :
  heap st !! web.pastebins = Some reg ->
  Dict.get reg service = None ->
  exists st',
    web.paste w data ext service st
      = Some (Return (PyStr "Unable to paste data"), st')
    /\ logged st' = logged st.
Proof.
  intros Hreg G. rewrite (paste_start _ _ _ _ _ _ Hreg), G.
  eexists. split; reflexivity.
Qed.

Lemma paste_unknown_service_witness :
  exists st',
    web.paste Sample.accepting "data" "txt" "nopaste" web.loaded
      = Some (Return (PyStr "Unable to paste data"), st')
    /\ logged st' = logged web.loaded.
Proof.
  apply (paste_unknown_service Sample.accepting "data" "txt" "nopaste" web.loaded
           _ loaded_pastebins).
  reflexivity.
Defined.

(** C9 as stated fails: [nopaste] is not registered and [hastebin], the
    registered pastebin, would return a URL, but [paste] does not try it:
    the result is neither the URL of a pastebin that succeeds nor the
    failure string of a registry where none succeeds. *)
Lemma paste_unknown_service_counterexample :
  Dict.get [("hastebin", PastebinObj Hastebin.new)] "nopaste" = None
  /\ call_paste (PastebinObj Hastebin.new) Sample.accepting "data" "txt"
       = Return (PyStr "https://hastebin.com/abc.txt")
  /\ ~ (exists v st',
          web.paste Sample.accepting "data" "txt" "nopaste" web.loaded
            = Some (Return v, st')
          /\ ((exists k j, In (k, j) [("hastebin", PastebinObj Hastebin.new)]
                 /\ call_paste j Sample.accepting "data" "txt" = Return v)
              \/ (v = PyStr "Unable to paste data"
                  /\ forall k j, In (k, j) [("hastebin", PastebinObj Hastebin.new)] ->
                     forall u, call_paste j Sample.accepting "data" "txt" <> Return u))).
Proof.
  assert (Hcall : call_paste (PastebinObj Hastebin.new) Sample.accepting "data" "txt"
                  = Return (PyStr "https://hastebin.com/abc.txt"))
    by (vm_compute; reflexivity).
  split; [reflexivity|]. split; [exact Hcall|].
  intros (v & st' & Hrun & Hv).
  rewrite (paste_start _ _ _ _ _ _ loaded_pastebins) in Hrun.
  cbn in Hrun. inversion Hrun; subst v. clear Hrun.
  destruct Hv as [(k & j & [Hin|[]] & Hj)|(_ & Hnone)].
  - inversion Hin; subst. rewrite Hcall in Hj. discriminate.
  - apply (Hnone "hastebin" (PastebinObj Hastebin.new) (or_introl eq_refl) _ Hcall).
Qed.

(** C10. A call of [paste] leaves the pastebin registry as it was: [bins]
    is a new dict object, and only [bins] is written to. The same holds
    for every dict object that existed before the call; the call itself
    always ends. *)
Theorem paste_keeps_registry (w : World) (data ext service : string) (st : state) :
  exists r st',
    web.paste w data ext service st = Some (r, st')
    /\ heap st' !! web.pastebins = heap st !! web.pastebins
    /\ forall l d, heap st !! l = Some d -> heap st' !! l = Some d.
Proof.
  destruct (paste_total w data ext service st) as [[r st'] Hrun].
  exists r, st'. split; [exact Hrun|].
  destruct (heap st !! web.pastebins) as [reg|] eqn:Hreg.
  - rewrite (paste_start _ _ _ _ _ _ Hreg) in Hrun.
    assert (Hframe : forall l d, heap st !! l = Some d -> heap st' !! l = Some d).
    { intros l d Hl.
      rewrite (paste_loop_frame _ _ _ _ _ _ _ _ _ l Hrun).
      - cbn [heap]. rewrite lookup_insert_ne; [exact Hl|].
        apply (fresh_other _ _ _ Hl).
      - intros E. symmetry in E. exact (fresh_other _ _ _ Hl E). }
    split; [apply Hframe, Hreg | exact Hframe].
  - unfold web.paste in Hrun. unfold bind at 1 in Hrun.
    rewrite (copy_unbound _ _ Hreg) in Hrun. inversion Hrun; subst.
    split; [exact Hreg | tauto].
Qed.

(** ** The claims on the shorteners *)

(** C3. For a registered service name, [try_shorten] never raises
    [ServiceError]: when the [shorten] of the selected backend raises
    [ServiceError] it returns the [url] it was given, and when [shorten]
    returns it returns the same value. *)
Theorem try_shorten_recovers (w : World) (url : string) (custom key : option string)
    (service : string) (st : state) (reg : pydict instance) (impl : instance) :
  heap st !! web.shorteners = Some reg ->
  Dict.get reg service = Some impl ->
  exists r,
    web.try_shorten w url custom key service st = Some (r, st)
    /\ ~ raises_ServiceError r
    /\ (raises_ServiceError (call_shorten impl w url custom key) ->
        r = Return (PyStr url))
    /\ (forall v, call_shorten impl w url custom key = Return v -> r = Return v).
Proof.
  intros Hreg G. exists (call_try_shorten impl w url custom key).
  assert (Hcases : forall r, call_shorten impl w url custom key = r ->
            call_try_shorten impl w url custom key =
            match r with
            | Raise e => if is_ServiceError e then Return (PyStr url) else Raise e
            | Return v => Return v
            end).
  { intros r <-. destruct impl as [s|p]; reflexivity. }
  split; [|split; [|split]].
  - unfold web.try_shorten, bind. rewrite (getitem_present _ _ _ _ _ Hreg G).
    reflexivity.
  - rewrite (Hcases _ eq_refl).
    destruct (call_shorten impl w url custom key) as [v|e].
    + intros (m & q & H). discriminate.
    + destruct e; cbn; intros (m & q & H); discriminate.
  - intros (m & q & H). rewrite (Hcases _ H). reflexivity.
  - intros v H. rewrite (Hcases _ H). reflexivity.
Qed.

Lemma try_shorten_recovers_witness :
  exists r,
    web.try_shorten Sample.failing "http://example.com" None None "git.io" web.loaded
      = Some (r, web.loaded)
    /\ ~ raises_ServiceError r
    /\ (raises_ServiceError
          (call_shorten (ShortenerObj Gitio.new) Sample.failing "http://example.com"
             None None) ->
        r = Return (PyStr "http://example.com"))
    /\ (forall v, call_shorten (ShortenerObj Gitio.new) Sample.failing
                    "http://example.com" None None = Return v -> r = Return v).
Proof.
  apply (try_shorten_recovers Sample.failing "http://example.com" None None "git.io"
           web.loaded _ (ShortenerObj Gitio.new) loaded_shorteners).
  reflexivity.
Defined.

(** The scan of [expand] passes the names that are not in [url]. *)
Lemma expand_scan_skip (url : string) (rest : list string) : forall names,
  (forall k, In k names -> Str.contains k url = false) ->
  web.expand_scan (names ++ rest) url = web.expand_scan rest url.
Proof.
  induction names as [|k names IH]; intros Hnone.
  - reflexivity.
  - cbn [app web.expand_scan]. rewrite (Hnone k (or_introl eq_refl)).
    apply IH. intros k' Hin. apply Hnone. right. exact Hin.
Qed.

Lemma get_first_entry {V : Type} (pre post : pydict V) (name : string) (v : V) :
  (forall k j, In (k, j) pre -> k <> name) ->
  Dict.get (pre ++ (name, v) :: post) name = Some v.
Proof.
  induction pre as [|[k j] pre IH]; intros Hne; cbn [app Dict.get].
  - rewrite String.eqb_refl. reflexivity.
  - destruct (String.eqb_spec name k) as [->|_].
    + exfalso. exact (Hne k j (or_introl eq_refl) eq_refl).
    + apply IH. intros k' j' Hin. apply (Hne k' j'). right. exact Hin.
Qed.

(** The inference of [expand], once the names are read. *)
Lemma expand_infer_run (st : state) (reg : pydict instance) (url : string) :
  heap st !! web.shorteners = Some reg ->
  web.expand_infer url st =
  match web.expand_scan (Dict.keys reg) url st with
  | Some (Return (Some i), st') => Some (Return i, st')
  | Some (Return None, st') => Some (Return (ShortenerObj Shortener.new), st')
  | Some (Raise e, st') => Some (Raise e, st')
  | None => None
  end.
Proof.
  intros Hreg. unfold web.expand_infer, Store.keys.
  unfold bind at 1. unfold bind at 1. unfold Store.deref. rewrite Hreg.
  unfold ret at 1. unfold bind.
  destruct (web.expand_scan (Dict.keys reg) url st) as [[[[i|]|e] st']|]; reflexivity.
Qed.

(** C4. Without a service, [expand(url)] goes to the first registered
    shortener, in the order of registration, whose name is a substring of
    [url]; when no registered name is a substring of [url] it goes to a
    plain [Shortener()], whose [expand] is the request that does not follow
    redirects. An empty [service] counts as none. *)
Theorem expand_dispatch (w : World) (url : string) (service : option string)
    (st : state) (reg : pydict instance) :
  heap st !! web.shorteners = Some reg ->
  opt_truthy service = false ->
  (forall pre name impl post,
     reg = pre ++ (name, impl) :: post ->
     Str.contains name url = true ->
     (forall k j, In (k, j) pre -> Str.contains k url = false) ->
     web.expand w url service st = Some (call_expand impl w url, st))
  /\ ((forall k j, In (k, j) reg -> Str.contains k url = false) ->
      web.expand w url service st = Some (Shortener.expand_ w url, st)).
Proof.
  intros Hreg Hserv.
  assert (Hrun : web.expand w url service st =
                 match web.expand_scan (Dict.keys reg) url st with
                 | Some (Return (Some i), st') => Some (call_expand i w url, st')
                 | Some (Return None, st') => Some (Shortener.expand_ w url, st')
                 | Some (Raise e, st') => Some (Raise e, st')
                 | None => None
                 end).
  { assert (Hinfer : web.expand w url service st
                     = (impl <- web.expand_infer url;;
                        lift (call_expand impl w url))%py st).
    { unfold web.expand. destruct service as [s|]; [|reflexivity].
      cbn in Hserv. rewrite Hserv. reflexivity. }
    rewrite Hinfer. unfold bind at 1. rewrite (expand_infer_run _ _ _ Hreg).
    destruct (web.expand_scan (Dict.keys reg) url st) as [[[[i|]|e] st']|];
      reflexivity. }
  rewrite Hrun. split.
  - intros pre name impl post -> Hin Hpre.
    unfold Dict.keys. rewrite map_app. cbn [map fst].
    rewrite expand_scan_skip.
    + cbn [web.expand_scan]. rewrite Hin. unfold bind at 1.
      erewrite getitem_present; [reflexivity | exact Hreg |].
      apply get_first_entry. intros k j Hk ->.
      rewrite (Hpre _ _ Hk) in Hin. discriminate.
    + intros k Hk. apply in_map_iff in Hk as ([k' j] & <- & Hk).
      apply (Hpre _ _ Hk).
  - intros Hnone.
    rewrite <- (app_nil_r (Dict.keys reg)), expand_scan_skip.
    + reflexivity.
    + intros k Hk. apply in_map_iff in Hk as ([k' j] & <- & Hk).
      apply (Hnone _ _ Hk).
Qed.

Lemma expand_dispatch_witness :
  web.expand Sample.accepting "http://git.io/cb" None web.loaded
    = Some (call_expand (ShortenerObj Gitio.new) Sample.accepting "http://git.io/cb",
            web.loaded).
Proof.
  apply (proj1 (expand_dispatch Sample.accepting "http://git.io/cb" None web.loaded _
                  loaded_shorteners eq_refl)
           [("is.gd", ShortenerObj Isgd.new); ("goo.gl", ShortenerObj Googl.new)]
           "git.io" (ShortenerObj Gitio.new) []).
  - reflexivity.
  - reflexivity.
  - intros k j [H|[H|[]]]; inversion H; reflexivity.
Defined.

(** C5. [Gitio.shorten] with a custom code that is not empty, when git.io
    answers 201 with a [location] header: if the header does not contain
    the code, [ServiceError] is raised, although the request succeeded; if
    it does, the header is the result. *)
Theorem gitio_custom_code (w : World) (url custom : string) (key : option string)
    (r : Response) (s : string) :
  custom <> EmptyString ->
  requests.post w "http://git.io" []
    (FormData [("url", PyStr url); ("code", PyStr custom)]) [] = Return r ->
  status_code r = requests.codes_created ->
  Headers.get (headers r) "location" = Some s ->
  (Str.contains custom s = false ->
   Gitio.shorten w url (Some custom) key
     = Raise (ServiceError (PyStr "That URL is already in use") r))
  /\ (Str.contains custom s = true ->
      Gitio.shorten w url (Some custom) key = Return (PyStr s)).
Proof.
  intros Hcustom Hpost Hstatus Hloc.
  assert (Htruthy : opt_truthy (Some custom) = true)
    by (destruct custom; [congruence | reflexivity]).
  assert (Hok : raise_ServiceError_for_status r = Return tt).
  { unfold raise_ServiceError_for_status, requests.raise_for_status.
    rewrite Hstatus. reflexivity. }
  unfold Gitio.shorten. cbn [of_opt]. rewrite Hpost. cbn [rbind].
  rewrite Hok. cbn [rbind]. rewrite Hstatus, Z.eqb_refl.
  unfold Headers.getitem. rewrite Hloc. cbn [rbind]. rewrite Htruthy.
  split; intros ->; reflexivity.
Qed.

Lemma gitio_custom_code_witness :
  Gitio.shorten (Sample.world (Return Sample.created_other) None)
      "https://github.com/cloudbot" (Some "cb") None
    = Raise (ServiceError (PyStr "That URL is already in use") Sample.created_other).
Proof.
  apply (proj1 (gitio_custom_code (Sample.world (Return Sample.created_other) None)
                  "https://github.com/cloudbot" "cb" None Sample.created_other
                  "https://git.io/vX3" ltac:(discriminate) eq_refl eq_refl eq_refl)).
  reflexivity.
Defined.

(** ** The claims on the page checker *)

(** C6, as the code has it. Whenever [urlparse] accepts the input, [down]
    returns a string with "down" in it on a connection failure, and a
    string with "up" in it on a response whose status is not an error
    status (not in 400 to 599). *)
Theorem down_classifies (w : World) (text : string) (p : ParseResult) :
  urlparse w (if negb (Str.contains "://" text) then "http://" +:+ text else text)
    = Return p ->
  (requests.get w ("http://" +:+ p_netloc p) [] true = Raise ConnectionError ->
   pagecheck.down w text = Return ("http://" +:+ p_netloc p +:+ " seems to be down")
   /\ Str.contains "down" ("http://" +:+ p_netloc p +:+ " seems to be down") = true)
  /\ (forall r,
        requests.get w ("http://" +:+ p_netloc p) [] true = Return r ->
        status_code r < 400 \/ 600 <= status_code r ->
        pagecheck.down w text = Return ("http://" +:+ p_netloc p +:+ " seems to be up")
        /\ Str.contains "up" ("http://" +:+ p_netloc p +:+ " seems to be up") = true).
Proof.
  intros Hparse. unfold pagecheck.down. rewrite Hparse. cbn [rbind]. split.
  - intros Hget. rewrite Hget. cbn [rbind is_ConnectionError]. split; [reflexivity|].
    do 2 apply contains_append_l. reflexivity.
  - intros r Hget Hstatus. rewrite Hget. cbn [rbind].
    unfold requests.raise_for_status.
    replace ((400 <=? status_code r) && (status_code r <? 600)) with false
      by (symmetry; apply andb_false_iff; lia).
    split; [reflexivity|].
    do 2 apply contains_append_l. reflexivity.
Qed.

Lemma down_classifies_witness :
  pagecheck.down Sample.unreachable "example.com"
    = Return "http://example.com seems to be down"
  /\ Str.contains "down" "http://example.com seems to be down" = true.
Proof.
  apply (proj1 (down_classifies Sample.unreachable "example.com"
                  (mkParse "http" "example.com" EmptyString EmptyString EmptyString
                           EmptyString)
                  eq_refl)).
  reflexivity.
Defined.

(** C6 as stated fails: the server answers 404, an HTTP response, and
    [down] returns no string: the [HTTPError] of [raise_for_status] is not
    a [ConnectionError] and leaves [down]. *)
Lemma down_error_status_counterexample :
  requests.get (Sample.world (Return Sample.not_found) None) "http://example.com" [] true
    = Return Sample.not_found
  /\ pagecheck.down (Sample.world (Return Sample.not_found) None) "example.com"
       = Raise (HTTPError Sample.not_found)
  /\ ~ (exists s,
          pagecheck.down (Sample.world (Return Sample.not_found) None) "example.com"
            = Return s
          /\ Str.contains "up" s = true).
Proof.
  split; [reflexivity|]. split; [reflexivity|].
  intros (s & H & _). vm_compute in H. discriminate.
Qed.

(** C7, where the code departs from it: on the answer 500 of the status
    page, [isup] returns no string. [raise_for_status] raises [HTTPError],
    the [except] clause takes [ConnectionError] only, and the test of the
    status code that follows is not reached. *)
Theorem isup_error_status_raises :
  requests.get Sample.failing "http://isup.me/example.com" [] true
    = Return Sample.server_error
  /\ pagecheck.isup Sample.failing "example.com" = Raise (HTTPError Sample.server_error).
Proof. split; reflexivity. Qed.

(** What [isup] does return on a failure: the fixed message, on a
    connection failure and on a status that is neither 200 nor an error
    status. *)
Lemma isup_failed_to_get_status (w : World) (text : string) (parts : SplitResult) :
  urlsplit w (Str.strip text) = Return parts ->
  (requests.get w ("http://isup.me/" +:+
                   (if Str.truthy (netloc parts) then netloc parts else path parts))
                [] true = Raise ConnectionError ->
   pagecheck.isup w text = Return "Failed to get status.")
  /\ (forall r,
        requests.get w ("http://isup.me/" +:+
                        (if Str.truthy (netloc parts) then netloc parts else path parts))
                     [] true = Return r ->
        status_code r < 400 \/ 600 <= status_code r ->
        status_code r <> requests.codes_ok ->
        pagecheck.isup w text = Return "Failed to get status.").
Proof.
  intros Hsplit. unfold pagecheck.isup. rewrite Hsplit. cbn [rbind]. split.
  - intros Hget. rewrite Hget. reflexivity.
  - intros r Hget Hstatus Hne. rewrite Hget. cbn [rbind].
    unfold requests.raise_for_status.
    replace ((400 <=? status_code r) && (status_code r <? 600)) with false
      by (symmetry; apply andb_false_iff; lia).
    cbn [rbind]. apply Z.eqb_neq in Hne. rewrite Hne. reflexivity.
Qed.

(** C8, as the code has it. On a 200 answer of the status page that has
    the element [domain-main-content], the verdict of [isup] follows the
    text of that element, stripped: with "not just you" in it, the "down"
    sentence; otherwise with "is up" in it, the "up" sentence; with
    neither, the sentence that this is no site. *)
Theorem isup_verdict (w : World) (text : string) (parts : SplitResult)
    (response : Response) (t : string) :
  urlsplit w (Str.strip text) = Return parts ->
  requests.get w ("http://isup.me/" +:+
                  (if Str.truthy (netloc parts) then netloc parts else path parts))
               [] true = Return response ->
  status_code response = requests.codes_ok ->
  find_div_text w (response_text response) "domain-main-content" = Some t ->
  (Str.contains "not just you" (Str.strip t) = true ->
   pagecheck.isup w text
     = Return ("It's not just you. " +:+ Str.strip text +:+ " looks "
               +:+ pagecheck.down_mark +:+ " from here!"))
  /\ (Str.contains "not just you" (Str.strip t) = false ->
      Str.contains "is up" (Str.strip t) = true ->
      pagecheck.isup w text
        = Return ("It's just you. " +:+ Str.strip text +:+ " is "
                  +:+ pagecheck.up_mark +:+ "."))
  /\ (Str.contains "not just you" (Str.strip t) = false ->
      Str.contains "is up" (Str.strip t) = false ->
      pagecheck.isup w text
        = Return "Huh? That doesn't look like a site on the interweb.").
Proof.
  intros Hsplit Hget Hstatus Hdiv.
  assert (Hok : requests.raise_for_status response = Return tt).
  { unfold requests.raise_for_status. rewrite Hstatus. reflexivity. }
  unfold pagecheck.isup. rewrite Hsplit. cbn [rbind]. rewrite Hget. cbn [rbind].
  rewrite Hok. cbn [rbind]. rewrite Hstatus, Z.eqb_refl. cbn [negb].
  rewrite Hdiv.
  split; [|split].
  - intros ->. reflexivity.
  - intros -> ->. reflexivity.
  - intros -> ->. reflexivity.
Qed.

Lemma isup_verdict_witness :
  pagecheck.isup
      (Sample.world (Return Sample.page)
         (Some " It's not just you! example.com looks down from here. "))
      " example.com "
    = Return ("It's not just you. " +:+ "example.com" +:+ " looks "
              +:+ pagecheck.down_mark +:+ " from here!").
Proof.
  apply (proj1 (isup_verdict
                  (Sample.world (Return Sample.page)
                     (Some " It's not just you! example.com looks down from here. "))
                  " example.com "
                  (mkSplit EmptyString EmptyString "example.com" EmptyString EmptyString)
                  Sample.page
                  " It's not just you! example.com looks down from here. "
                  eq_refl eq_refl eq_refl eq_refl)).
  reflexivity.
Defined.

(** C8 as stated fails: the status page answers 200 and its text has
    "is up" in it, but the page has no element [domain-main-content];
    [find] gives [None], [.text] raises [AttributeError], and [isup]
    gives none of the three verdicts. *)
Lemma isup_verdict_counterexample :
  requests.get (Sample.world (Return Sample.plain_page) None)
      "http://isup.me/example.com" [] true = Return Sample.plain_page
  /\ status_code Sample.plain_page = requests.codes_ok
  /\ Str.contains "is up" (response_text Sample.plain_page) = true
  /\ Str.contains "not just you" (response_text Sample.plain_page) = false
  /\ pagecheck.isup (Sample.world (Return Sample.plain_page) None) "example.com"
       = Raise AttributeError
  /\ ~ (exists s,
          pagecheck.isup (Sample.world (Return Sample.plain_page) None) "example.com"
            = Return s).
Proof.
  repeat (split; [reflexivity|]).
  intros (s & H). discriminate.
Qed.

(** ** The scenarios of the specification, and a few more *)

(** [shorten("http://example.com", service="is.gd")] when the API answers
    with a [shorturl]. *)
Example shorten_isgd :
  web.shorten
    (Sample.world
       (Return (mkResponse 200 "OK" [] "{...}"
                  (Some (PyDict [("shorturl", PyStr "http://is.gd/abc")]))))
       None)
    "http://example.com" None None "is.gd" web.loaded
  = Some (Return (PyStr "http://is.gd/abc"), web.loaded).
Proof. reflexivity. Qed.

(** [expand("http://is.gd/abc")] goes to the [is.gd] backend. *)
Example expand_isgd :
  web.expand Sample.accepting "http://is.gd/abc" None web.loaded
  = Some (Isgd.expand Sample.accepting "http://is.gd/abc", web.loaded).
Proof. reflexivity. Qed.

(** A URL of no registered shortener gets the plain request. *)
Example expand_other :
  web.expand Sample.accepting "http://example.com/x" None web.loaded
  = Some (Shortener.expand_ Sample.accepting "http://example.com/x", web.loaded).
Proof. reflexivity. Qed.

(** An unknown shortener is a [KeyError]. *)
Example shorten_unknown :
  web.shorten Sample.accepting "http://example.com" None None "tinyurl" web.loaded
  = Some (Raise (KeyError "tinyurl"), web.loaded).
Proof. reflexivity. Qed.

(** git.io gave the code that was asked for. *)
Example gitio_code_free :
  Gitio.shorten (Sample.world (Return Sample.created) None)
    "https://github.com/cloudbot" (Some "cb") None
  = Return (PyStr "https://git.io/cb").
Proof. reflexivity. Qed.

(** [hastebin] stores the paste. *)
Example paste_hastebin :
  exists st',
    web.paste Sample.accepting "data" "txt" web.DEFAULT_PASTEBIN web.loaded
      = Some (Return (PyStr "https://hastebin.com/abc.txt"), st').
Proof. eexists. reflexivity. Qed.

(** A status that is neither 200 nor an error status: the fixed message. *)
Example isup_not_modified :
  pagecheck.isup (Sample.world (Return Sample.not_modified) None) "example.com"
  = Return "Failed to get status.".
Proof. reflexivity. Qed.

Example isup_unreachable :
  pagecheck.isup Sample.unreachable "example.com" = Return "Failed to get status.".
Proof. reflexivity. Qed.

(** A page without the element: [find] gives [None], and [.text] fails. *)
Example isup_no_element :
  pagecheck.isup (Sample.world (Return Sample.page) None) "example.com"
  = Raise AttributeError.
Proof. reflexivity. Qed.

Example down_reachable :
  pagecheck.down (Sample.world (Return Sample.page) None) "example.com/path?q=1"
  = Return "http://example.com seems to be up".
Proof. reflexivity. Qed.

Example service_error_str :
  ServiceError_str (PyStr "Internal Server Error") Sample.server_error
  = "[HTTP 500] Internal Server Error".
Proof. reflexivity. Qed.

(** * Further properties *)

(** ** More on dicts *)

Section DictMore.
Context {V : Type}.
Implicit Types (d : pydict V) (k : string) (v : V).

Lemma popitem_inv d kv rest :
  Dict.popitem d = Some (kv, rest) -> d = rest ++ [kv].
Proof.
  revert kv rest. induction d as [|x d IH]; cbn [Dict.popitem]; intros kv rest H.
  - discriminate.
  - destruct (Dict.popitem d) as [[l r]|] eqn:E.
    + inversion H; subst. rewrite (IH _ _ eq_refl). reflexivity.
    + inversion H; subst. destruct d as [|y d]; [reflexivity|].
      cbn [Dict.popitem] in E. destruct (Dict.popitem d) as [[? ?]|]; discriminate.
Qed.

Lemma get_set_same d k v : Dict.get (Dict.set d k v) k = Some v.
Proof.
  induction d as [|[k0 v0] d IH]; cbn [Dict.set Dict.get].
  - rewrite String.eqb_refl. reflexivity.
  - destruct (String.eqb k k0) eqn:E; cbn [Dict.get]; rewrite E; [reflexivity | exact IH].
Qed.

Lemma get_set_other d k k' v : k' <> k -> Dict.get (Dict.set d k v) k' = Dict.get d k'.
Proof.
  intros Hne. induction d as [|[k0 v0] d IH]; cbn [Dict.set Dict.get].
  - destruct (String.eqb_spec k' k); [contradiction | reflexivity].
  - destruct (String.eqb_spec k k0) as [->|_]; cbn [Dict.get].
    + destruct (String.eqb_spec k' k0); [contradiction | reflexivity].
    + rewrite IH. reflexivity.
Qed.

Lemma mem_keys_get d k :
  existsb (String.eqb k) (Dict.keys d) =
  match Dict.get d k with Some _ => true | None => false end.
Proof.
  induction d as [|[k0 v0] d IH]; cbn [Dict.keys map fst existsb Dict.get].
  - reflexivity.
  - destruct (String.eqb k k0); [reflexivity | exact IH].
Qed.

End DictMore.

Lemma getitem_absent (st : state) (l : loc) (d : pydict instance) (k : string) :
  heap st !! l = Some d -> Dict.get d k = None ->
  Store.getitem l k st = Some (Raise (KeyError k), st).
Proof.
  intros H G. unfold Store.getitem, bind, Store.deref. rewrite H, G. reflexivity.
Qed.

Lemma getitem_unbound (st : state) (l : loc) (k : string) :
  heap st !! l = None -> Store.getitem l k st = Some (Raise NameError, st).
Proof. intros H. unfold Store.getitem, bind, Store.deref. rewrite H. reflexivity. Qed.

(** ** More on the loop of [paste] *)

Section PasteLoopMore.
Variables (w : World) (data ext : string).
Implicit Types (st : state) (i j : instance) (d : pydict instance).

(** The loop never ends on a [ServiceError]. *)
Lemma paste_loop_no_ServiceError bins fuel : forall st impl r st',
  web.paste_loop fuel w data ext bins impl st = Some (r, st') ->
  ~ raises_ServiceError r.
Proof.
  induction fuel as [|fuel IH]; intros st impl r st' Hrun (m & q & Hr); subst r.
  - destruct impl; cbn in Hrun; discriminate.
  - destruct impl as [i|]; [|discriminate].
    rewrite paste_loop_turn in Hrun.
    destruct (call_paste i w data ext) as [v|e]; [discriminate|].
    destruct (is_ServiceError e) eqn:He.
    + cbn zeta in Hrun. destruct (heap st !! bins) as [d|]; [|discriminate].
      destruct (Dict.popitem d) as [[kv rest]|]; [|discriminate].
      apply (IH _ _ _ _ Hrun). do 2 eexists. reflexivity.
    + inversion Hrun; subst. discriminate.
Qed.

(** What the loop ends on is the failure string or the outcome of one of
    the backends at hand. *)
Lemma paste_loop_origin bins fuel : forall d st impl r st',
  heap st !! bins = Some d ->
  web.paste_loop fuel w data ext bins impl st = Some (r, st') ->
  r = Return (PyStr "Unable to paste data")
  \/ (exists i, impl = Some i /\ call_paste i w data ext = r)
  \/ (exists k j, In (k, j) d /\ call_paste j w data ext = r).
Proof.
  induction fuel as [|fuel IH]; intros d st impl r st' Hb Hrun.
  - destruct impl; cbn in Hrun; [discriminate|]. inversion Hrun. left. reflexivity.
  - destruct impl as [i|]; [|inversion Hrun; left; reflexivity].
    rewrite paste_loop_turn in Hrun.
    destruct (call_paste i w data ext) as [v|e] eqn:Hcall.
    + inversion Hrun; subst. right. left. exists i. split; [reflexivity | exact Hcall].
    + destruct (is_ServiceError e).
      * cbn zeta in Hrun. rewrite Hb in Hrun.
        destruct (Dict.popitem d) as [[[k j] rest]|] eqn:Hp.
        -- apply popitem_inv in Hp. subst d.
           destruct (IH rest _ _ _ _ (lookup_insert_eq _ _ _) Hrun)
             as [H|[(i' & Hi & H)|(k' & j' & Hin & H)]].
           ++ left. exact H.
           ++ inversion Hi; subst i'. right. right. exists k, j.
              split; [apply in_or_app; right; left; reflexivity | exact H].
           ++ right. right. exists k', j'.
              split; [apply in_or_app; left; exact Hin | exact H].
        -- inversion Hrun. left. reflexivity.
      * inversion Hrun; subst. right. left. exists i.
        split; [reflexivity | exact Hcall].
Qed.

(** Each turn that fails adds one line to the log, and there is at most
    one turn for the backend at hand and one for each item of [bins]. *)
Lemma paste_loop_log bins fuel : forall d st impl r st',
  heap st !! bins = Some d ->
  web.paste_loop fuel w data ext bins impl st = Some (r, st') ->
  exists n, (n <= match impl with Some _ => S (length d) | None => 0 end)%nat
    /\ logged st' = logged st ++ replicate n "Paste failed".
Proof.
  induction fuel as [|fuel IH]; intros d st impl r st' Hb Hrun.
  - destruct impl; cbn in Hrun; [discriminate|]. inversion Hrun.
    exists 0%nat. split; [lia | symmetry; apply app_nil_r].
  - destruct impl as [i|];
      [|inversion Hrun; exists 0%nat; split; [lia | symmetry; apply app_nil_r]].
    rewrite paste_loop_turn in Hrun.
    destruct (call_paste i w data ext) as [v|e].
    + inversion Hrun; subst. exists 0%nat. split; [lia | symmetry; apply app_nil_r].
    + destruct (is_ServiceError e).
      * cbn zeta in Hrun. rewrite Hb in Hrun.
        destruct (Dict.popitem d) as [[kv rest]|] eqn:Hp.
        -- destruct (IH rest _ _ _ _ (lookup_insert_eq _ _ _) Hrun) as (n & Hn & Hlog).
           apply popitem_length in Hp.
           exists (S n). split; [lia|].
           rewrite Hlog. cbn [logged replicate]. rewrite <- app_assoc. reflexivity.
        -- inversion Hrun. exists 1%nat. split; [lia | reflexivity].
      * inversion Hrun; subst. exists 0%nat. split; [lia | symmetry; apply app_nil_r].
Qed.

(** The outcome of the loop depends on the backends only: not on where
    [bins] is, not on the rest of the store, not on spare fuel. *)
Lemma paste_loop_agree impl : forall d fuel1 fuel2 bins1 bins2 st1 st2,
  heap st1 !! bins1 = Some d -> heap st2 !! bins2 = Some d ->
  (length d < fuel1)%nat -> (length d < fuel2)%nat ->
  exists r st1' st2',
    web.paste_loop fuel1 w data ext bins1 impl st1 = Some (r, st1')
    /\ web.paste_loop fuel2 w data ext bins2 impl st2 = Some (r, st2').
Proof.
  intros d. revert impl.
  induction d as [|[k j] d IH] using rev_ind;
    intros impl fuel1 fuel2 bins1 bins2 st1 st2 H1 H2 L1 L2.
  - destruct fuel1 as [|fuel1]; [cbn in L1; lia|].
    destruct fuel2 as [|fuel2]; [cbn in L2; lia|].
    destruct impl as [i|]; [|do 3 eexists; split; reflexivity].
    rewrite !paste_loop_turn.
    destruct (call_paste i w data ext) as [v|e]; [do 3 eexists; split; reflexivity|].
    destruct (is_ServiceError e); [|do 3 eexists; split; reflexivity].
    cbn zeta. rewrite H1, H2. cbn [Dict.popitem].
    do 3 eexists. split; reflexivity.
  - rewrite length_app in L1, L2. cbn [length] in L1, L2.
    destruct fuel1 as [|fuel1]; [lia|]. destruct fuel2 as [|fuel2]; [lia|].
    destruct impl as [i|]; [|do 3 eexists; split; reflexivity].
    rewrite !paste_loop_turn.
    destruct (call_paste i w data ext) as [v|e]; [do 3 eexists; split; reflexivity|].
    destruct (is_ServiceError e); [|do 3 eexists; split; reflexivity].
    cbn zeta. rewrite H1, H2, popitem_last. cbn [snd].
    apply IH; cbn [heap]; try apply lookup_insert_eq; lia.
Qed.

End PasteLoopMore.

(** ** [paste]: what it returns, raises and logs *)

(** A dict object that exists when [paste] is called is the same when it
    ends. *)
Lemma paste_run_frame (w : World) (data ext service : string) (st st' : state)
    (r : result pyval) (l : loc) (d : pydict instance) :
  web.paste w data ext service st = Some (r, st') ->
  heap st !! l = Some d -> heap st' !! l = Some d.
Proof.
  intros Hrun Hl.
  destruct (heap st !! web.pastebins) as [reg|] eqn:Hreg.
  - rewrite (paste_start _ _ _ _ _ _ Hreg) in Hrun.
    rewrite (paste_loop_frame _ _ _ _ _ _ _ _ _ l Hrun).
    + cbn [heap]. rewrite lookup_insert_ne; [exact Hl|].
      apply (fresh_other _ _ _ Hl).
    + intros E. symmetry in E. exact (fresh_other _ _ _ Hl E).
  - unfold web.paste in Hrun. unfold bind at 1 in Hrun.
    rewrite (copy_unbound _ _ Hreg) in Hrun. inversion Hrun; subst. exact Hl.
Qed.

(** X1. [paste] never lets a [ServiceError] out, whatever the registry, the
    requested service and the answers of the servers; and it always ends. *)
Theorem paste_never_raises_ServiceError (w : World) (data ext service : string)
    (st : state) :
  exists r st',
    web.paste w data ext service st = Some (r, st') /\ ~ raises_ServiceError r.
Proof.
  destruct (paste_total w data ext service st) as [[r st'] Hrun].
  exists r, st'. split; [exact Hrun|].
  destruct (heap st !! web.pastebins) as [reg|] eqn:Hreg.
  - rewrite (paste_start _ _ _ _ _ _ Hreg) in Hrun.
    exact (paste_loop_no_ServiceError _ _ _ _ _ _ _ _ _ Hrun).
  - unfold web.paste in Hrun. unfold bind at 1 in Hrun.
    rewrite (copy_unbound _ _ Hreg) in Hrun. inversion Hrun.
    intros (m & q & H). discriminate.
Qed.

(** X2. What [paste] ends on is either the string ["Unable to paste data"]
    or the outcome, a value or an exception, of the [paste] of a registered
    backend: it makes up no other result. *)
Theorem paste_outcome_origin (w : World) (data ext service : string)
    (st : state) (reg : pydict instance) :
  heap st !! web.pastebins = Some reg ->
  exists r st',
    web.paste w data ext service st = Some (r, st')
    /\ (r = Return (PyStr "Unable to paste data")
        \/ exists k j, In (k, j) reg /\ call_paste j w data ext = r).
Proof.
  intros Hreg. destruct (paste_total w data ext service st) as [[r st'] Hrun].
  exists r, st'. split; [exact Hrun|].
  rewrite (paste_start _ _ _ _ _ _ Hreg) in Hrun.
  destruct (paste_loop_origin w data ext _ _ (Dict.remove reg service) _ _ _ _
              (lookup_insert_eq _ _ _) Hrun)
    as [H|[(i & Hi & H)|(k & j & Hin & H)]].
  - left. exact H.
  - right. exists service, i. split; [apply get_In, Hi | exact H].
  - right. exists k, j. split; [eapply remove_In, Hin | exact H].
Qed.

Lemma paste_outcome_origin_witness :
  exists r st',
    web.paste Sample.failing "data" "txt" "hastebin" Sample.with_offline = Some (r, st')
    /\ (r = Return (PyStr "Unable to paste data")
        \/ exists k j,
             In (k, j)
                [("spare", PastebinObj (Sample.fixed_paste
                                          (Return (PyStr "https://spare.example/1"))));
                 ("offline", PastebinObj (Sample.fixed_paste (Raise ConnectionError)));
                 ("hastebin", PastebinObj Hastebin.new)]
             /\ call_paste j Sample.failing "data" "txt" = r).
Proof.
  exact (paste_outcome_origin Sample.failing "data" "txt" "hastebin"
           Sample.with_offline _ with_offline_pastebins).
Defined.

(** X3. With one registered pastebin, requested by its name, [paste] ends
    as the [paste] of that backend does, except that a [ServiceError]
    becomes the string ["Unable to paste data"]. This is the module as
    loaded: [hastebin] alone. *)
Theorem paste_single_backend (w : World) (data ext name : string)
    (st : state) (b : instance) :
  heap st !! web.pastebins = Some [(name, b)] ->
  exists st',
    web.paste w data ext name st =
    Some (match call_paste b w data ext with
          | Raise e => if is_ServiceError e then Return (PyStr "Unable to paste data")
                       else Raise e
          | Return v => Return v
          end, st').
Proof.
  intros Hreg. rewrite (paste_start _ _ _ _ _ _ Hreg).
  cbn [Dict.get Dict.remove length]. rewrite String.eqb_refl.
  rewrite paste_loop_turn.
  destruct (call_paste b w data ext) as [v|e]; [eexists; reflexivity|].
  destruct (is_ServiceError e); [|eexists; reflexivity].
  cbn zeta. cbn [heap]. rewrite lookup_insert_eq. cbn [Dict.popitem].
  eexists. reflexivity.
Qed.

Lemma paste_single_backend_witness :
  exists st',
    web.paste Sample.unreachable "data" "txt" "hastebin" web.loaded =
    Some (match call_paste (PastebinObj Hastebin.new) Sample.unreachable "data" "txt" with
          | Raise e => if is_ServiceError e then Return (PyStr "Unable to paste data")
                       else Raise e
          | Return v => Return v
          end, st').
Proof.
  exact (paste_single_backend Sample.unreachable "data" "txt" "hastebin" web.loaded
           (PastebinObj Hastebin.new) loaded_pastebins).
Defined.

(** X4. When the requested service is registered and every registered
    backend raises [ServiceError], each backend is tried once: the call
    logs ["Paste failed"] as many times as there are registered backends. *)
Theorem paste_logs_each_failure (w : World) (data ext service : string)
    (st : state) (reg : pydict instance) (impl : instance) :
  heap st !! web.pastebins = Some reg ->
  Dict.get reg service = Some impl ->
  (forall k j, In (k, j) reg -> raises_ServiceError (call_paste j w data ext)) ->
  exists st',
    web.paste w data ext service st = Some (Return (PyStr "Unable to paste data"), st')
    /\ logged st' = logged st ++ replicate (length reg) "Paste failed".
Proof.
  intros Hreg G Hall. rewrite (paste_start _ _ _ _ _ _ Hreg), G.
  destruct (paste_loop_all_fail w data ext (fresh (dom (heap st)))
              (Dict.remove reg service) (S (length reg))
              (mkState (<[fresh (dom (heap st)) := Dict.remove reg service]> (heap st))
                       (logged st)) impl) as (st' & Hrun & Hlog).
  - cbn [heap]. apply lookup_insert_eq.
  - rewrite (remove_length _ _ _ G). lia.
  - apply (Hall service impl), get_In, G.
  - intros k j Hin. apply (Hall k j). eapply remove_In, Hin.
  - exists st'. split; [exact Hrun|].
    rewrite Hlog. cbn [logged]. rewrite <- (remove_length _ _ _ G). reflexivity.
Qed.

Lemma paste_logs_each_failure_witness :
  exists st',
    web.paste Sample.failing "data" "txt" "hastebin" web.loaded
      = Some (Return (PyStr "Unable to paste data"), st')
    /\ logged st' = logged web.loaded ++ replicate 1 "Paste failed".
Proof.
  apply (paste_logs_each_failure Sample.failing "data" "txt" "hastebin" web.loaded
           [("hastebin", PastebinObj Hastebin.new)] (PastebinObj Hastebin.new)
           loaded_pastebins eq_refl).
  intros k j [H|[]]. inversion H; subst. do 2 eexists. reflexivity.
Defined.

(** X5. Whatever the outcome, a call of [paste] adds to the log only lines
    ["Paste failed"], and no more of them than there are registered
    backends: the fallback is bounded by the size of the registry. *)
Theorem paste_log_bounded (w : World) (data ext service : string)
    (st : state) (reg : pydict instance) :
  heap st !! web.pastebins = Some reg ->
  exists r st' n,
    web.paste w data ext service st = Some (r, st')
    /\ (n <= length reg)%nat
    /\ logged st' = logged st ++ replicate n "Paste failed".
Proof.
  intros Hreg. destruct (paste_total w data ext service st) as [[r st'] Hrun].
  rewrite (paste_start _ _ _ _ _ _ Hreg) in Hrun.
  destruct (paste_loop_log w data ext _ _ (Dict.remove reg service) _ _ _ _
              (lookup_insert_eq _ _ _) Hrun) as (n & Hn & Hlog).
  exists r, st', n. rewrite (paste_start _ _ _ _ _ _ Hreg).
  split; [exact Hrun|]. split; [|exact Hlog].
  destruct (Dict.get reg service) as [i|] eqn:G; [|lia].
  rewrite (remove_length _ _ _ G). exact Hn.
Qed.

Lemma paste_log_bounded_witness :
  exists r st' n,
    web.paste Sample.failing "data" "txt" "hastebin" Sample.with_spare = Some (r, st')
    /\ (n <= 2)%nat
    /\ logged st' = logged Sample.with_spare ++ replicate n "Paste failed".
Proof.
  exact (paste_log_bounded Sample.failing "data" "txt" "hastebin" Sample.with_spare
           _ with_spare_pastebins).
Defined.

(** X6. The fallback does not use up the registry: a second call of
    [paste] with the same arguments, in the state the first one left, ends
    as the first one did. *)
Theorem paste_repeatable (w : World) (data ext service : string)
    (st : state) (reg : pydict instance) :
  heap st !! web.pastebins = Some reg ->
  exists r st1 st2,
    web.paste w data ext service st = Some (r, st1)
    /\ web.paste w data ext service st1 = Some (r, st2).
Proof.
  intros Hreg.
  destruct (paste_total w data ext service st) as [[r st1] Hrun].
  pose proof (paste_run_frame _ _ _ _ _ _ _ _ _ Hrun Hreg) as Hsame.
  pose proof Hrun as Hrun1.
  rewrite (paste_start _ _ _ _ _ _ Hreg) in Hrun1.
  destruct (paste_loop_agree w data ext (Dict.get reg service)
              (Dict.remove reg service) (S (length reg)) (S (length reg))
              (fresh (dom (heap st))) (fresh (dom (heap st1)))
              (mkState (<[fresh (dom (heap st)) := Dict.remove reg service]> (heap st))
                       (logged st))
              (mkState (<[fresh (dom (heap st1)) := Dict.remove reg service]> (heap st1))
                       (logged st1)))
    as (r' & st1' & st2 & H1 & H2).
  - cbn [heap]. apply lookup_insert_eq.
  - cbn [heap]. apply lookup_insert_eq.
  - destruct (Dict.get reg service) as [i|] eqn:G.
    + rewrite (remove_length _ _ _ G). lia.
    + rewrite (remove_absent _ _ G). lia.
  - destruct (Dict.get reg service) as [i|] eqn:G.
    + rewrite (remove_length _ _ _ G). lia.
    + rewrite (remove_absent _ _ G). lia.
  - rewrite H1 in Hrun1. inversion Hrun1; subst r' st1'.
    exists r, st1, st2. split; [exact Hrun|].
    rewrite (paste_start _ _ _ _ _ _ Hsame). exact H2.
Qed.

Lemma paste_repeatable_witness :
  exists r st1 st2,
    web.paste Sample.failing "data" "txt" "hastebin" Sample.with_spare = Some (r, st1)
    /\ web.paste Sample.failing "data" "txt" "hastebin" st1 = Some (r, st2).
Proof.
  exact (paste_repeatable Sample.failing "data" "txt" "hastebin" Sample.with_spare
           _ with_spare_pastebins).
Defined.

(** ** The registries: lookups and registration *)

Lemma getitem_read_only (l : loc) (k : string) (st : state) :
  exists r, Store.getitem l k st = Some (r, st).
Proof.
  unfold Store.getitem, bind, Store.deref.
  destruct (heap st !! l) as [d|]; [|eexists; reflexivity].
  destruct (Dict.get d k); eexists; reflexivity.
Qed.

Lemma expand_scan_read_only (url : string) (st : state) : forall names,
  exists r, web.expand_scan names url st = Some (r, st).
Proof.
  induction names as [|name names IH]; cbn [web.expand_scan].
  - eexists. reflexivity.
  - destruct (Str.contains name url); [|exact IH].
    unfold bind. destruct (getitem_read_only web.shorteners name st) as [[v|e] ->];
      eexists; reflexivity.
Qed.

(** X7. A service name that is not in the shortener registry is a
    [KeyError] for [shorten] and for [try_shorten] alike: [try_shorten]
    recovers from [ServiceError] only, and no backend is called. *)
Theorem shorten_unknown_service (w : World) (url : string) (custom key : option string)
    (service : string) (st : state) (reg : pydict instance) :
  heap st !! web.shorteners = Some reg ->
  Dict.get reg service = None ->
  web.shorten w url custom key service st = Some (Raise (KeyError service), st)
  /\ web.try_shorten w url custom key service st = Some (Raise (KeyError service), st).
Proof.
  intros Hreg G. unfold web.shorten, web.try_shorten, bind.
  rewrite (getitem_absent _ _ _ _ Hreg G). split; reflexivity.
Qed.

Lemma shorten_unknown_service_witness :
  web.shorten Sample.accepting "http://example.com" None None "bit.ly" web.loaded
    = Some (Raise (KeyError "bit.ly"), web.loaded)
  /\ web.try_shorten Sample.accepting "http://example.com" None None "bit.ly" web.loaded
     = Some (Raise (KeyError "bit.ly"), web.loaded).
Proof.
  exact (shorten_unknown_service Sample.accepting "http://example.com" None None
           "bit.ly" web.loaded _ loaded_shorteners eq_refl).
Defined.

(** X8. With a service that is not empty, [expand] looks at the registry
    only: a registered service gets the call whatever names [url] contains,
    and a service that is not registered is a [KeyError], also when [url]
    contains a registered name. *)
Theorem expand_explicit_service (w : World) (url service : string)
    (st : state) (reg : pydict instance) :
  heap st !! web.shorteners = Some reg ->
  service <> EmptyString ->
  (forall impl, Dict.get reg service = Some impl ->
     web.expand w url (Some service) st = Some (call_expand impl w url, st))
  /\ (Dict.get reg service = None ->
      web.expand w url (Some service) st = Some (Raise (KeyError service), st)).
Proof.
  intros Hreg Hne.
  assert (Ht : Str.truthy service = true) by (destruct service; [congruence|reflexivity]).
  unfold web.expand. rewrite Ht. unfold bind. split.
  - intros impl G. rewrite (getitem_present _ _ _ _ _ Hreg G). reflexivity.
  - intros G. rewrite (getitem_absent _ _ _ _ Hreg G). reflexivity.
Qed.

Lemma expand_explicit_service_witness :
  web.expand Sample.accepting "http://is.gd/abc" (Some "git.io") web.loaded
    = Some (call_expand (ShortenerObj Gitio.new) Sample.accepting "http://is.gd/abc",
            web.loaded).
Proof.
  apply (proj1 (expand_explicit_service Sample.accepting "http://is.gd/abc" "git.io"
                  web.loaded _ loaded_shorteners ltac:(discriminate))).
  reflexivity.
Defined.

(** X9. For a registered service, [shorten] ends as the [shorten] of the
    backend does, [ServiceError] included, and [try_shorten] ends the same
    way unless that is a [ServiceError]: any other exception, a
    [ConnectionError] for one, leaves [try_shorten] too. *)
Theorem shorten_and_try_shorten (w : World) (url : string) (custom key : option string)
    (service : string) (st : state) (reg : pydict instance) (impl : instance) :
  heap st !! web.shorteners = Some reg ->
  Dict.get reg service = Some impl ->
  web.shorten w url custom key service st
    = Some (call_shorten impl w url custom key, st)
  /\ (~ raises_ServiceError (call_shorten impl w url custom key) ->
      web.try_shorten w url custom key service st
        = Some (call_shorten impl w url custom key, st)).
Proof.
  intros Hreg G. unfold web.shorten, web.try_shorten, bind.
  rewrite (getitem_present _ _ _ _ _ Hreg G). split; [reflexivity|].
  intros Hno. unfold lift. do 2 f_equal.
  destruct impl as [s|p]; [|reflexivity].
  cbn [call_try_shorten call_shorten] in *. unfold Shortener.try_shorten.
  destruct (Shortener.shorten s w url custom key) as [v|e]; [reflexivity|].
  destruct e; try reflexivity.
  exfalso. apply Hno. do 2 eexists. reflexivity.
Qed.

Lemma shorten_and_try_shorten_witness :
  web.shorten Sample.unreachable "http://example.com" None None "is.gd" web.loaded
    = Some (call_shorten (ShortenerObj Isgd.new) Sample.unreachable
              "http://example.com" None None, web.loaded)
  /\ (~ raises_ServiceError (call_shorten (ShortenerObj Isgd.new) Sample.unreachable
                               "http://example.com" None None) ->
      web.try_shorten Sample.unreachable "http://example.com" None None "is.gd"
        web.loaded
        = Some (call_shorten (ShortenerObj Isgd.new) Sample.unreachable
                  "http://example.com" None None, web.loaded)).
Proof.
  exact (shorten_and_try_shorten Sample.unreachable "http://example.com" None None
           "is.gd" web.loaded _ (ShortenerObj Isgd.new) loaded_shorteners eq_refl).
Defined.

(** X10. [shorten], [try_shorten] and [expand] only read: whatever they
    are given and however they end, the registries and the log are as
    before. *)
Theorem shortener_calls_read_only (w : World) (url : string)
    (custom key : option string) (service : string) (target : option string)
    (st : state) :
  (exists r, web.shorten w url custom key service st = Some (r, st))
  /\ (exists r, web.try_shorten w url custom key service st = Some (r, st))
  /\ (exists r, web.expand w url target st = Some (r, st)).
Proof.
  split; [|split].
  - unfold web.shorten, bind.
    destruct (getitem_read_only web.shorteners service st) as [[v|e] ->];
      eexists; reflexivity.
  - unfold web.try_shorten, bind.
    destruct (getitem_read_only web.shorteners service st) as [[v|e] ->];
      eexists; reflexivity.
  - assert (Hinfer : exists r, web.expand_infer url st = Some (r, st)).
    { unfold web.expand_infer, Store.keys. unfold bind at 1. unfold bind at 1.
      unfold Store.deref. destruct (heap st !! web.shorteners) as [reg|];
        [|eexists; reflexivity].
      unfold ret at 1. unfold bind.
      destruct (expand_scan_read_only url st (Dict.keys reg)) as [[[i|]|e] ->];
        eexists; reflexivity. }
    assert (Hpick : exists r,
              match target with
              | Some s => if Str.truthy s then Store.getitem web.shorteners s
                          else web.expand_infer url
              | None => web.expand_infer url
              end st = Some (r, st)).
    { destruct target as [s|]; [|exact Hinfer].
      destruct (Str.truthy s); [apply getitem_read_only | exact Hinfer]. }
    unfold web.expand, bind. destruct Hpick as [[v|e] ->]; eexists; reflexivity.
Qed.

Lemma setitem_bound (st : state) (l : loc) (d : pydict instance) (k : string)
    (v : instance) :
  heap st !! l = Some d ->
  Store.setitem l k v st
    = Some (Return tt, mkState (<[l := Dict.set d k v]> (heap st)) (logged st)).
Proof. intros H. unfold Store.setitem, bind, Store.deref. rewrite H. reflexivity. Qed.

(** X11. Registration and lookup: once [_shortener(name)] has decorated a
    class, [shorten] with that service name calls the [shorten] of the
    class, the other names resolve as before, and the pastebin registry
    and the log are as before. *)
Theorem shortener_registered_then_found (name : string) (impl : Shortener.t)
    (st : state) (reg : pydict instance) :
  heap st !! web.shorteners = Some reg ->
  exists st' reg',
    web._shortener name impl st = Some (Return tt, st')
    /\ heap st' !! web.shorteners = Some reg'
    /\ (forall w url custom key,
          web.shorten w url custom key name st'
            = Some (Shortener.shorten impl w url custom key, st'))
    /\ (forall other, other <> name -> Dict.get reg' other = Dict.get reg other)
    /\ heap st' !! web.pastebins = heap st !! web.pastebins
    /\ logged st' = logged st.
Proof.
  intros Hreg. unfold web._shortener. rewrite (setitem_bound _ _ _ _ _ Hreg).
  do 2 eexists. split; [reflexivity|].
  assert (Hnew : heap (mkState (<[web.shorteners :=
                          Dict.set reg name (ShortenerObj impl)]> (heap st)) (logged st))
                   !! web.shorteners
                 = Some (Dict.set reg name (ShortenerObj impl)))
    by (cbn [heap]; apply lookup_insert_eq).
  split; [exact Hnew|]. split; [|split; [|split]].
  - intros w url custom key. unfold web.shorten, bind.
    rewrite (getitem_present _ _ _ _ _ Hnew (get_set_same _ _ _)). reflexivity.
  - intros other Hne. apply get_set_other, Hne.
  - cbn [heap]. apply lookup_insert_ne. discriminate.
  - reflexivity.
Qed.

Lemma shortener_registered_then_found_witness :
  exists st' reg',
    web._shortener "git.io" Shortener.new web.loaded = Some (Return tt, st')
    /\ heap st' !! web.shorteners = Some reg'
    /\ (forall w url custom key,
          web.shorten w url custom key "git.io" st'
            = Some (Shortener.shorten Shortener.new w url custom key, st'))
    /\ (forall other, other <> "git.io" ->
          Dict.get reg' other
          = Dict.get [("is.gd", ShortenerObj Isgd.new); ("goo.gl", ShortenerObj Googl.new);
                      ("git.io", ShortenerObj Gitio.new)] other)
    /\ heap st' !! web.pastebins = heap web.loaded !! web.pastebins
    /\ logged st' = logged web.loaded.
Proof.
  exact (shortener_registered_then_found "git.io" Shortener.new web.loaded _
           loaded_shorteners).
Defined.

(** X12. Registration keeps the names of a registry distinct and stores
    the new instance. A name that is new goes to the end of the registry;
    a name that is registered already keeps its place, and its instance is
    replaced: in both cases the name then resolves to the instance of the
    decorated class, and the other names resolve as before. The same holds
    for [_shortener] and for [_pastebin]. *)
Theorem registration_keeps_names_distinct (name : string) (st : state)
    (reg : pydict instance) :
  Dict.wf reg ->
  (forall impl, heap st !! web.shorteners = Some reg ->
     exists st' reg',
       web._shortener name impl st = Some (Return tt, st')
       /\ heap st' !! web.shorteners = Some reg'
       /\ Dict.wf reg'
       /\ Dict.keys reg'
          = match Dict.get reg name with
            | Some _ => Dict.keys reg
            | None => Dict.keys reg ++ [name]
            end
       /\ Dict.get reg' name = Some (ShortenerObj impl)
       /\ (forall other, other <> name -> Dict.get reg' other = Dict.get reg other))
  /\ (forall impl, heap st !! web.pastebins = Some reg ->
        exists st' reg',
          web._pastebin name impl st = Some (Return tt, st')
          /\ heap st' !! web.pastebins = Some reg'
          /\ Dict.wf reg'
          /\ Dict.keys reg'
             = match Dict.get reg name with
               | Some _ => Dict.keys reg
               | None => Dict.keys reg ++ [name]
               end
          /\ Dict.get reg' name = Some (PastebinObj impl)
          /\ (forall other, other <> name -> Dict.get reg' other = Dict.get reg other)).
Proof.
  intros Hwf.
  assert (Hkeys : forall v : instance,
            Dict.keys (Dict.set reg name v)
            = match Dict.get reg name with
              | Some _ => Dict.keys reg
              | None => Dict.keys reg ++ [name]
              end).
  { intros v. destruct (Dict.get reg name) as [v0|] eqn:G.
    - apply (keys_set_present _ _ _ _ G).
    - apply (keys_set_absent _ _ _ G). }
  split; intros impl Hreg.
  - unfold web._shortener. rewrite (setitem_bound _ _ _ _ _ Hreg).
    do 2 eexists. split; [reflexivity|].
    split; [cbn [heap]; apply lookup_insert_eq|].
    split; [apply set_wf, Hwf|]. split; [apply Hkeys|].
    split; [apply get_set_same | intros other Hne; apply get_set_other, Hne].
  - unfold web._pastebin. rewrite (setitem_bound _ _ _ _ _ Hreg).
    do 2 eexists. split; [reflexivity|].
    split; [cbn [heap]; apply lookup_insert_eq|].
    split; [apply set_wf, Hwf|]. split; [apply Hkeys|].
    split; [apply get_set_same | intros other Hne; apply get_set_other, Hne].
Qed.

(** [hastebin] registered again, with another class: one name as before,
    and the new instance in the place of [Hastebin]. *)
Lemma registration_keeps_names_distinct_witness :
  exists st' reg',
    web._pastebin "hastebin" Pastebin.new web.loaded = Some (Return tt, st')
    /\ heap st' !! web.pastebins = Some reg'
    /\ Dict.wf reg'
    /\ Dict.keys reg' = ["hastebin"]
    /\ Dict.get reg' "hastebin" = Some (PastebinObj Pastebin.new)
    /\ (forall other, other <> "hastebin" ->
          Dict.get reg' other
          = Dict.get [("hastebin", PastebinObj Hastebin.new)] other).
Proof.
  assert (Hwf : Dict.wf [("hastebin", PastebinObj Hastebin.new)]).
  { unfold Dict.wf. cbn. apply NoDup_singleton. }
  exact (proj2 (registration_keeps_names_distinct "hastebin" web.loaded _ Hwf)
           Pastebin.new loaded_pastebins).
Defined.

(** X13. The default services are registered when the module is loaded:
    with [DEFAULT_SHORTENER], [shorten] and [try_shorten] reach the [is.gd]
    backend and never raise [KeyError], and with [DEFAULT_PASTEBIN] the
    pastebin that [paste] tries is [hastebin]. *)
Theorem default_services_registered (w : World) (url data ext : string)
    (custom key : option string) :
  web.shorten w url custom key web.DEFAULT_SHORTENER web.loaded
    = Some (Isgd.shorten w url custom key, web.loaded)
  /\ web.try_shorten w url custom key web.DEFAULT_SHORTENER web.loaded
     = Some (Shortener.try_shorten Isgd.new w url custom key, web.loaded)
  /\ exists st',
       web.paste w data ext web.DEFAULT_PASTEBIN web.loaded
       = Some (match Hastebin.paste w data ext with
               | Raise e => if is_ServiceError e
                            then Return (PyStr "Unable to paste data") else Raise e
               | Return v => Return v
               end, st').
Proof.
  split; [|split].
  - unfold web.shorten, bind.
    rewrite (getitem_present _ _ _ web.DEFAULT_SHORTENER (ShortenerObj Isgd.new)
               loaded_shorteners eq_refl).
    reflexivity.
  - unfold web.try_shorten, bind.
    rewrite (getitem_present _ _ _ web.DEFAULT_SHORTENER (ShortenerObj Isgd.new)
               loaded_shorteners eq_refl).
    reflexivity.
  - rewrite (paste_start _ _ _ _ _ _ loaded_pastebins).
    cbn [Dict.get Dict.remove length web.DEFAULT_PASTEBIN]. rewrite String.eqb_refl.
    rewrite paste_loop_turn.
    change (call_paste (PastebinObj Hastebin.new) w data ext)
      with (Hastebin.paste w data ext).
    destruct (Hastebin.paste w data ext) as [v|e]; [eexists; reflexivity|].
    destruct (is_ServiceError e); [|eexists; reflexivity].
    cbn zeta. cbn [heap]. rewrite lookup_insert_eq. cbn [Dict.popitem].
    eexists. reflexivity.
Qed.

(** ** The backends: how a response is read *)

Lemma for_status_error (r : Response) :
  400 <= status_code r < 600 ->
  raise_ServiceError_for_status r = Raise (ServiceError (PyStr (reason r)) r).
Proof.
  intros H. unfold raise_ServiceError_for_status, requests.raise_for_status.
  replace ((400 <=? status_code r) && (status_code r <? 600)) with true
    by (symmetry; apply andb_true_iff; lia).
  reflexivity.
Qed.

Lemma for_status_pass (r : Response) :
  status_code r < 400 \/ 600 <= status_code r ->
  raise_ServiceError_for_status r = Return tt.
Proof.
  intros H. unfold raise_ServiceError_for_status, requests.raise_for_status.
  replace ((400 <=? status_code r) && (status_code r <? 600)) with false
    by (symmetry; apply andb_false_iff; lia).
  reflexivity.
Qed.

(** X14. Every method of every backend turns an error status, 400 to 599,
    into a [ServiceError] that carries the reason phrase and the response,
    without reading the body. *)
Theorem backends_wrap_error_status (w : World) (r : Response) (url data ext : string)
    (custom key : option string) :
  (forall q, send w q = Return r) ->
  400 <= status_code r < 600 ->
  Shortener.expand_ w url = Raise (ServiceError (PyStr (reason r)) r)
  /\ Isgd.shorten w url custom key = Raise (ServiceError (PyStr (reason r)) r)
  /\ Isgd.expand w url = Raise (ServiceError (PyStr (reason r)) r)
  /\ Googl.shorten w url custom key = Raise (ServiceError (PyStr (reason r)) r)
  /\ Googl.expand w url = Raise (ServiceError (PyStr (reason r)) r)
  /\ Gitio.shorten w url custom key = Raise (ServiceError (PyStr (reason r)) r)
  /\ Hastebin.paste w data ext = Raise (ServiceError (PyStr (reason r)) r).
Proof.
  intros Hsend Hstatus. pose proof (for_status_error r Hstatus) as Herr.
  repeat split;
    [ unfold Shortener.expand_ | unfold Isgd.shorten | unfold Isgd.expand
    | unfold Googl.shorten | unfold Googl.expand | unfold Gitio.shorten
    | unfold Hastebin.paste ];
    unfold requests.get, requests.post; rewrite Hsend; cbn [rbind];
    rewrite Herr; reflexivity.
Qed.

Lemma backends_wrap_error_status_witness :
  Hastebin.paste Sample.failing "data" "txt"
    = Raise (ServiceError (PyStr "Internal Server Error") Sample.server_error).
Proof.
  apply (backends_wrap_error_status Sample.failing Sample.server_error
           "http://example.com" "data" "txt" None None).
  - intros q. reflexivity.
  - cbn. lia.
Defined.

(** X15. A failure of the transport is never turned into a
    [ServiceError]: when [requests] raises instead of answering, every
    method of every backend raises the same exception. So, in the module
    as loaded, [try_shorten] does not fall back to the [url] and [paste]
    does not fall back to its failure string: both raise. *)
Theorem transport_failure_propagates (w : World) (e : exn) (url data ext : string)
    (custom key : option string) :
  (forall q, send w q = Raise e) ->
  is_ServiceError e = false ->
  (Shortener.expand_ w url = Raise e
   /\ Isgd.shorten w url custom key = Raise e
   /\ Isgd.expand w url = Raise e
   /\ Googl.shorten w url custom key = Raise e
   /\ Googl.expand w url = Raise e
   /\ Gitio.shorten w url custom key = Raise e
   /\ Hastebin.paste w data ext = Raise e)
  /\ web.try_shorten w url custom key web.DEFAULT_SHORTENER web.loaded
     = Some (Raise e, web.loaded)
  /\ exists st',
       web.paste w data ext web.DEFAULT_PASTEBIN web.loaded = Some (Raise e, st').
Proof.
  intros Hsend He.
  assert (Hisgd : Isgd.shorten w url custom key = Raise e)
    by (unfold Isgd.shorten, requests.get; rewrite Hsend; reflexivity).
  assert (Hhaste : Hastebin.paste w data ext = Raise e)
    by (unfold Hastebin.paste, requests.post; rewrite Hsend; reflexivity).
  split; [|split].
  - repeat split; try assumption;
      [ unfold Shortener.expand_ | unfold Isgd.expand
      | unfold Googl.shorten | unfold Googl.expand | unfold Gitio.shorten ];
      unfold requests.get, requests.post; rewrite Hsend; reflexivity.
  - unfold web.try_shorten, bind.
    rewrite (getitem_present _ _ _ web.DEFAULT_SHORTENER (ShortenerObj Isgd.new)
               loaded_shorteners eq_refl).
    unfold lift. cbn [call_try_shorten]. unfold Shortener.try_shorten.
    change (Shortener.shorten Isgd.new w url custom key)
      with (Isgd.shorten w url custom key).
    rewrite Hisgd, He. reflexivity.
  - rewrite (paste_start _ _ _ _ _ _ loaded_pastebins).
    cbn [Dict.get Dict.remove length web.DEFAULT_PASTEBIN]. rewrite String.eqb_refl.
    erewrite paste_loop_raise; [eexists; reflexivity | exact Hhaste | exact He].
Qed.

Lemma transport_failure_propagates_witness :
  exists st',
    web.paste Sample.unreachable "data" "txt" web.DEFAULT_PASTEBIN web.loaded
      = Some (Raise ConnectionError, st').
Proof.
  apply (transport_failure_propagates Sample.unreachable ConnectionError
           "http://example.com" "data" "txt" None None).
  - intros q. reflexivity.
  - reflexivity.
Defined.

Lemma py_contains_dict (k : string) (d : pydict pyval) :
  py_contains k (PyDict d)
  = Return (match Dict.get d k with Some _ => true | None => false end).
Proof. cbn [py_contains]. rewrite mem_keys_get. reflexivity. Qed.

(** X16. [Isgd]: on a response that is no error status and whose body is a
    JSON object, [shorten] returns the field [shorturl] when there is one;
    without it, the field [errormessage] becomes a [ServiceError], and an
    object with neither is a [KeyError]. [expand] does the same with the
    field [url]. *)
Theorem isgd_reads_response (w : World) (url : string) (custom key : option string)
    (r : Response) (d : pydict pyval) :
  status_code r < 400 \/ 600 <= status_code r ->
  json r = Some (PyDict d) ->
  (requests.get w "http://is.gd/create.php"
     [("url", PyStr url); ("shorturl", of_opt custom); ("format", PyStr "json")] true
     = Return r ->
   Isgd.shorten w url custom key =
   match Dict.get d "shorturl", Dict.get d "errormessage" with
   | Some v, _ => Return v
   | None, Some m => Raise (ServiceError m r)
   | None, None => Raise (KeyError "errormessage")
   end)
  /\ (requests.get w "http://is.gd/forward.php"
        [("shorturl", PyStr url); ("format", PyStr "json")] true = Return r ->
      Isgd.expand w url =
      match Dict.get d "url", Dict.get d "errormessage" with
      | Some v, _ => Return v
      | None, Some m => Raise (ServiceError m r)
      | None, None => Raise (KeyError "errormessage")
      end).
Proof.
  intros Hstatus Hjson. pose proof (for_status_pass r Hstatus) as Hok.
  split; intros Hget.
  - unfold Isgd.shorten. rewrite Hget. cbn [rbind]. rewrite Hok. cbn [rbind].
    unfold response_json. rewrite Hjson. cbn [rbind].
    rewrite py_contains_dict. cbn [rbind py_getitem].
    destruct (Dict.get d "shorturl"); [reflexivity|].
    destruct (Dict.get d "errormessage"); reflexivity.
  - unfold Isgd.expand. rewrite Hget. cbn [rbind]. rewrite Hok. cbn [rbind].
    unfold response_json. rewrite Hjson. cbn [rbind].
    rewrite py_contains_dict. cbn [rbind py_getitem].
    destruct (Dict.get d "url"); [reflexivity|].
    destruct (Dict.get d "errormessage"); reflexivity.
Qed.

Lemma isgd_reads_response_witness :
  Isgd.shorten (Sample.world (Return Sample.isgd_refused) None) "nonsense" None None
  = Raise (ServiceError (PyStr "Please enter a valid URL") Sample.isgd_refused).
Proof.
  apply (proj1 (isgd_reads_response
                  (Sample.world (Return Sample.isgd_refused) None)
                  "nonsense" None None Sample.isgd_refused
                  [("errorcode", PyInt 1);
                   ("errormessage", PyStr "Please enter a valid URL")]
                  ltac:(left; cbn; lia) eq_refl)).
  reflexivity.
Defined.

(** X17. [Googl]: on a response that is no error status and whose body is
    a JSON object, [shorten] returns the field [id] when the object has no
    field [error]; with a field [error] that is an object, its [message]
    becomes a [ServiceError], whether or not there is an [id]. [expand]
    does the same with the field [longUrl]. *)
Theorem googl_reads_response (w : World) (url : string) (custom key : option string)
    (r : Response) (d : pydict pyval) :
  status_code r < 400 \/ 600 <= status_code r ->
  json r = Some (PyDict d) ->
  (requests.post w "https://www.googleapis.com/urlshortener/v1/url"
     [("key", of_opt key)] (JsonDumps (PyDict [("longUrl", PyStr url)]))
     [("content-type", "application/json")] = Return r ->
   (forall v, Dict.get d "error" = None -> Dict.get d "id" = Some v ->
      Googl.shorten w url custom key = Return v)
   /\ (forall err m, Dict.get d "error" = Some (PyDict err) ->
         Dict.get err "message" = Some m ->
         Googl.shorten w url custom key = Raise (ServiceError m r)))
  /\ (requests.get w "https://www.googleapis.com/urlshortener/v1/url"
        [("shortUrl", PyStr url)] true = Return r ->
      (forall v, Dict.get d "error" = None -> Dict.get d "longUrl" = Some v ->
         Googl.expand w url = Return v)
      /\ (forall err m, Dict.get d "error" = Some (PyDict err) ->
            Dict.get err "message" = Some m ->
            Googl.expand w url = Raise (ServiceError m r))).
Proof.
  intros Hstatus Hjson. pose proof (for_status_pass r Hstatus) as Hok.
  split; intros Hreq; split.
  - intros v Herr Hid. unfold Googl.shorten. rewrite Hreq. cbn [rbind].
    rewrite Hok. cbn [rbind]. unfold response_json. rewrite Hjson. cbn [rbind].
    rewrite py_contains_dict, Herr. cbn [rbind negb py_getitem]. rewrite Hid.
    reflexivity.
  - intros err m Herr Hm. unfold Googl.shorten. rewrite Hreq. cbn [rbind].
    rewrite Hok. cbn [rbind]. unfold response_json. rewrite Hjson. cbn [rbind].
    rewrite py_contains_dict, Herr. cbn [rbind negb py_getitem]. rewrite Herr.
    cbn [rbind py_getitem]. rewrite Hm. reflexivity.
  - intros v Herr Hid. unfold Googl.expand. rewrite Hreq. cbn [rbind].
    rewrite Hok. cbn [rbind]. unfold response_json. rewrite Hjson. cbn [rbind].
    rewrite py_contains_dict, Herr. cbn [rbind negb py_getitem]. rewrite Hid.
    reflexivity.
  - intros err m Herr Hm. unfold Googl.expand. rewrite Hreq. cbn [rbind].
    rewrite Hok. cbn [rbind]. unfold response_json. rewrite Hjson. cbn [rbind].
    rewrite py_contains_dict, Herr. cbn [rbind negb py_getitem]. rewrite Herr.
    cbn [rbind py_getitem]. rewrite Hm. reflexivity.
Qed.

Lemma googl_reads_response_witness :
  Googl.expand (Sample.world (Return Sample.googl_found) None) "http://goo.gl/fbsS"
  = Return (PyStr "http://www.google.com/").
Proof.
  apply (proj1 (proj2 (googl_reads_response
                  (Sample.world (Return Sample.googl_found) None)
                  "http://goo.gl/fbsS" None None Sample.googl_found
                  [("id", PyStr "http://goo.gl/fbsS");
                   ("longUrl", PyStr "http://www.google.com/")]
                  ltac:(left; cbn; lia) eq_refl) eq_refl)).
  - reflexivity.
  - reflexivity.
Defined.

(** X18. [Gitio.shorten] beyond the check of the custom code. Without a
    custom code, [None] or empty, a 201 answer gives its [location] header
    whatever it holds. A status that is neither an error nor 201 is a
    [ServiceError] with the body as message. A 201 answer without a
    [location] header is a [KeyError], not a [ServiceError], so
    [try_shorten] raises it too. *)
Theorem gitio_other_answers (w : World) (url : string) (custom key : option string)
    (r : Response) :
  requests.post w "http://git.io" []
    (FormData [("url", PyStr url); ("code", of_opt custom)]) [] = Return r ->
  (forall s, opt_truthy custom = false ->
     status_code r = requests.codes_created ->
     Headers.get (headers r) "location" = Some s ->
     Gitio.shorten w url custom key = Return (PyStr s))
  /\ (status_code r < 400 \/ 600 <= status_code r ->
      status_code r <> requests.codes_created ->
      Gitio.shorten w url custom key = Raise (ServiceError (PyStr (text r)) r))
  /\ (status_code r = requests.codes_created ->
      Headers.get (headers r) "location" = None ->
      Gitio.shorten w url custom key = Raise (KeyError "location")
      /\ Shortener.try_shorten Gitio.new w url custom key = Raise (KeyError "location")).
Proof.
  intros Hpost.
  assert (Hcreated : status_code r = requests.codes_created ->
                     raise_ServiceError_for_status r = Return tt).
  { intros H. apply for_status_pass. rewrite H. left. reflexivity. }
  split; [|split].
  - intros s Hcustom Hstatus Hloc. unfold Gitio.shorten. rewrite Hpost. cbn [rbind].
    rewrite (Hcreated Hstatus). cbn [rbind]. rewrite Hstatus, Z.eqb_refl.
    unfold Headers.getitem. rewrite Hloc. cbn [rbind]. rewrite Hcustom. reflexivity.
  - intros Hstatus Hne. unfold Gitio.shorten. rewrite Hpost. cbn [rbind].
    rewrite (for_status_pass r Hstatus). cbn [rbind].
    apply Z.eqb_neq in Hne. rewrite Hne. reflexivity.
  - intros Hstatus Hloc.
    assert (Hrun : Gitio.shorten w url custom key = Raise (KeyError "location")).
    { unfold Gitio.shorten. rewrite Hpost. cbn [rbind].
      rewrite (Hcreated Hstatus). cbn [rbind]. rewrite Hstatus, Z.eqb_refl.
      unfold Headers.getitem. rewrite Hloc. reflexivity. }
    split; [exact Hrun|].
    unfold Shortener.try_shorten.
    change (Shortener.shorten Gitio.new w url custom key)
      with (Gitio.shorten w url custom key).
    rewrite Hrun. reflexivity.
Qed.

Lemma gitio_other_answers_witness :
  Gitio.shorten (Sample.world (Return Sample.created_bare) None)
      "https://github.com/cloudbot" (Some "cb") None
    = Raise (KeyError "location")
  /\ Shortener.try_shorten Gitio.new (Sample.world (Return Sample.created_bare) None)
       "https://github.com/cloudbot" (Some "cb") None
     = Raise (KeyError "location").
Proof.
  apply (proj2 (proj2 (gitio_other_answers
                         (Sample.world (Return Sample.created_bare) None)
                         "https://github.com/cloudbot" (Some "cb") None
                         Sample.created_bare eq_refl))).
  - reflexivity.
  - reflexivity.
Defined.

(** X19. [Hastebin.paste], on a response that is no error status. With
    status 200 and a JSON object whose [key] is a string, the result is the
    URL made of the server, the key and the extension. With another status,
    the [message] of the object becomes a [ServiceError]. With a body that
    is not JSON, the call raises [ValueError], not [ServiceError]. *)
Theorem hastebin_reads_response (w : World) (data ext : string) (r : Response) :
  requests.post w (HASTEBIN_SERVER +:+ "/documents") [] (RawData data) [] = Return r ->
  status_code r < 400 \/ 600 <= status_code r ->
  (forall d k, status_code r = requests.codes_ok ->
     json r = Some (PyDict d) -> Dict.get d "key" = Some (PyStr k) ->
     Hastebin.paste w data ext
       = Return (PyStr ("https://hastebin.com/" +:+ k +:+ "." +:+ ext)))
  /\ (forall d m, status_code r <> requests.codes_ok ->
        json r = Some (PyDict d) -> Dict.get d "message" = Some m ->
        Hastebin.paste w data ext = Raise (ServiceError m r))
  /\ (json r = None -> Hastebin.paste w data ext = Raise ValueError).
Proof.
  intros Hpost Hstatus. pose proof (for_status_pass r Hstatus) as Hok.
  split; [|split].
  - intros d k H200 Hjson Hkey. unfold Hastebin.paste. rewrite Hpost. cbn [rbind].
    rewrite Hok. cbn [rbind]. unfold response_json. rewrite Hjson. cbn [rbind].
    rewrite H200, Z.eqb_refl. cbn [py_getitem]. rewrite Hkey. reflexivity.
  - intros d m Hne Hjson Hm. unfold Hastebin.paste. rewrite Hpost. cbn [rbind].
    rewrite Hok. cbn [rbind]. unfold response_json. rewrite Hjson. cbn [rbind].
    apply Z.eqb_neq in Hne. rewrite Hne. cbn [py_getitem]. rewrite Hm. reflexivity.
  - intros Hjson. unfold Hastebin.paste. rewrite Hpost. cbn [rbind].
    rewrite Hok. cbn [rbind]. unfold response_json. rewrite Hjson. reflexivity.
Qed.

Lemma hastebin_reads_response_witness :
  Hastebin.paste (Sample.world (Return Sample.haste_message) None) "data" "py"
  = Raise (ServiceError (PyStr "Document too long") Sample.haste_message).
Proof.
  apply (proj1 (proj2 (hastebin_reads_response
                         (Sample.world (Return Sample.haste_message) None)
                         "data" "py" Sample.haste_message eq_refl
                         ltac:(left; cbn; lia)))
           [("message", PyStr "Document too long")]).
  - discriminate.
  - reflexivity.
  - reflexivity.
Defined.

(** X20. [Shortener.expand], the plain request without redirects, on a
    response that is no error status: the [location] header is the result,
    under any spelling of its name; a response without that header, a page
    for one, is a [ServiceError] that says that the URL does not exist. *)
Theorem plain_expand_reads_location (w : World) (url : string) (r : Response) :
  requests.get w url [] false = Return r ->
  status_code r < 400 \/ 600 <= status_code r ->
  (forall name s rest,
     Str.lower name = "location" ->
     headers r = (name, s) :: rest ->
     Shortener.expand_ w url = Return (PyStr s))
  /\ (forall s, Headers.get (headers r) "location" = Some s ->
        Shortener.expand_ w url = Return (PyStr s))
  /\ (Headers.get (headers r) "location" = None ->
      Shortener.expand_ w url
        = Raise (ServiceError (PyStr "That URL does not exist") r)).
Proof.
  intros Hget Hstatus. pose proof (for_status_pass r Hstatus) as Hok.
  assert (Hfound : forall s, Headers.get (headers r) "location" = Some s ->
                    Shortener.expand_ w url = Return (PyStr s)).
  { intros s Hloc. unfold Shortener.expand_. rewrite Hget. cbn [rbind].
    rewrite Hok. cbn [rbind]. unfold Headers.mem, Headers.getitem. rewrite Hloc.
    reflexivity. }
  split; [|split].
  - intros name s rest Hname Hhdr. apply Hfound. rewrite Hhdr.
    cbn [Headers.get]. rewrite Hname. reflexivity.
  - exact Hfound.
  - intros Hloc. unfold Shortener.expand_. rewrite Hget. cbn [rbind].
    rewrite Hok. cbn [rbind]. unfold Headers.mem. rewrite Hloc. reflexivity.
Qed.

Lemma plain_expand_reads_location_witness :
  Shortener.expand_ (Sample.world (Return Sample.moved) None) "http://tiny.example/a"
  = Return (PyStr "http://example.com/long").
Proof.
  apply (proj1 (plain_expand_reads_location
                  (Sample.world (Return Sample.moved) None) "http://tiny.example/a"
                  Sample.moved eq_refl ltac:(left; cbn; lia))
           "Location" "http://example.com/long" []).
  - reflexivity.
  - reflexivity.
Defined.

(** ** The page checker: exceptions and inputs *)

(** X21. The exceptions of [down]: a [ValueError] of [urlparse] leaves
    it; so does the [HTTPError] that [raise_for_status] raises on an error
    status, 400 to 599; so does any failure of [requests] that is not a
    [ConnectionError]. *)
Theorem down_exceptions (w : World) (text : string) :
  (forall e,
     urlparse w (if negb (Str.contains "://" text) then "http://" +:+ text else text)
       = Raise e ->
     pagecheck.down w text = Raise e)
  /\ (forall p,
        urlparse w (if negb (Str.contains "://" text) then "http://" +:+ text else text)
          = Return p ->
        (forall r, requests.get w ("http://" +:+ p_netloc p) [] true = Return r ->
           400 <= status_code r < 600 ->
           pagecheck.down w text = Raise (HTTPError r))
        /\ (forall e, requests.get w ("http://" +:+ p_netloc p) [] true = Raise e ->
              is_ConnectionError e = false ->
              pagecheck.down w text = Raise e)).
Proof.
  split.
  - intros e Hparse. unfold pagecheck.down. rewrite Hparse. reflexivity.
  - intros p Hparse. unfold pagecheck.down. rewrite Hparse. cbn [rbind]. split.
    + intros r Hget Hstatus. rewrite Hget. cbn [rbind].
      unfold requests.raise_for_status.
      replace ((400 <=? status_code r) && (status_code r <? 600)) with true
        by (symmetry; apply andb_true_iff; lia).
      reflexivity.
    + intros e Hget He. rewrite Hget. cbn [rbind]. rewrite He. reflexivity.
Qed.

Lemma down_exceptions_witness :
  pagecheck.down Sample.failing "https://example.com/status"
    = Raise (HTTPError Sample.server_error).
Proof.
  apply (proj1 (proj2 (down_exceptions Sample.failing "https://example.com/status")
                  (mkParse "http" "example.com" EmptyString EmptyString EmptyString
                           EmptyString) eq_refl)
           Sample.server_error eq_refl).
  cbn. lia.
Defined.

(** X23. The exceptions of [isup]: a [ValueError] of [urlsplit] leaves it;
    so does the [HTTPError] of an error status, 400 to 599, and any failure
    of [requests] that is not a [ConnectionError]; and a 200 page without
    the element [domain-main-content] is an [AttributeError]. *)
Theorem isup_exceptions (w : World) (text : string) :
  (forall e, urlsplit w (Str.strip text) = Raise e -> pagecheck.isup w text = Raise e)
  /\ (forall parts,
        urlsplit w (Str.strip text) = Return parts ->
        (forall r,
           requests.get w ("http://isup.me/" +:+
                           (if Str.truthy (netloc parts) then netloc parts
                            else path parts)) [] true = Return r ->
           (400 <= status_code r < 600 -> pagecheck.isup w text = Raise (HTTPError r))
           /\ (status_code r = requests.codes_ok ->
               find_div_text w (response_text r) "domain-main-content" = None ->
               pagecheck.isup w text = Raise AttributeError))
        /\ (forall e,
              requests.get w ("http://isup.me/" +:+
                              (if Str.truthy (netloc parts) then netloc parts
                               else path parts)) [] true = Raise e ->
              is_ConnectionError e = false ->
              pagecheck.isup w text = Raise e)).
Proof.
  split.
  - intros e Hsplit. unfold pagecheck.isup. rewrite Hsplit. reflexivity.
  - intros parts Hsplit. unfold pagecheck.isup. rewrite Hsplit. cbn [rbind]. split.
    + intros r Hget. rewrite Hget. cbn [rbind]. split.
      * intros Hstatus. unfold requests.raise_for_status.
        replace ((400 <=? status_code r) && (status_code r <? 600)) with true
          by (symmetry; apply andb_true_iff; lia).
        reflexivity.
      * intros Hstatus Hdiv.
        assert (Hok : requests.raise_for_status r = Return tt)
          by (unfold requests.raise_for_status; rewrite Hstatus; reflexivity).
        rewrite Hok. cbn [rbind]. rewrite Hstatus, Z.eqb_refl. cbn [negb].
        rewrite Hdiv. reflexivity.
    + intros e Hget He. rewrite Hget. cbn [rbind]. rewrite He. reflexivity.
Qed.

Lemma isup_exceptions_witness :
  pagecheck.isup (Sample.world (Return Sample.not_found) None) "example.com"
    = Raise (HTTPError Sample.not_found).
Proof.
  apply (proj1 (proj1 (proj2 (isup_exceptions
                                (Sample.world (Return Sample.not_found) None)
                                "example.com")
                         (mkSplit EmptyString EmptyString "example.com" EmptyString
                                  EmptyString) eq_refl)
                  Sample.not_found eq_refl)).
  cbn. lia.
Defined.

(** X24. [down] looks at the host only: two inputs whose [netloc] is the
    same get the same answer, whatever their scheme, path and query. The
    request always goes to [http://] followed by the [netloc]. *)
Theorem down_depends_on_netloc (w : World) (text1 text2 : string)
    (p1 p2 : ParseResult) :
  urlparse w (if negb (Str.contains "://" text1) then "http://" +:+ text1 else text1)
    = Return p1 ->
  urlparse w (if negb (Str.contains "://" text2) then "http://" +:+ text2 else text2)
    = Return p2 ->
  p_netloc p1 = p_netloc p2 ->
  pagecheck.down w text1 = pagecheck.down w text2.
Proof.
  intros H1 H2 Hnet. unfold pagecheck.down. rewrite H1, H2. cbn [rbind].
  rewrite Hnet. reflexivity.
Qed.

Lemma down_depends_on_netloc_witness :
  pagecheck.down Sample.unreachable "https://example.com/a?b=c"
    = pagecheck.down Sample.unreachable "example.com".
Proof.
  exact (down_depends_on_netloc Sample.unreachable "https://example.com/a?b=c"
           "example.com" _ _ eq_refl eq_refl eq_refl).
Defined.

(** ** [strip] *)

Section StripFacts.

Lemma rstrip_cons (c : ascii) (s : string) :
  Str.rstrip (String c s) =
  match Str.rstrip s with
  | EmptyString => if Str.isspace c then EmptyString else String c EmptyString
  | r => String c r
  end.
Proof. reflexivity. Qed.

Lemma rstrip_idempotent (s : string) : Str.rstrip (Str.rstrip s) = Str.rstrip s.
Proof.
  induction s as [|c s IH]; [reflexivity|].
  rewrite rstrip_cons. destruct (Str.rstrip s) as [|a r] eqn:E.
  - destruct (Str.isspace c) eqn:Hc; [reflexivity|].
    rewrite rstrip_cons. cbn [Str.rstrip]. rewrite Hc. reflexivity.
  - rewrite rstrip_cons, IH. reflexivity.
Qed.

Lemma lstrip_idempotent (s : string) : Str.lstrip (Str.lstrip s) = Str.lstrip s.
Proof.
  induction s as [|c s IH]; [reflexivity|].
  cbn [Str.lstrip]. destruct (Str.isspace c) eqn:Hc; [exact IH|].
  cbn [Str.lstrip]. rewrite Hc. reflexivity.
Qed.

(** Taking spaces off the front of a string without trailing space
    leaves no trailing space. *)
Lemma rstrip_lstrip (s : string) :
  Str.rstrip s = s -> Str.rstrip (Str.lstrip s) = Str.lstrip s.
Proof.
  induction s as [|c s IH]; intros H; [reflexivity|].
  cbn [Str.lstrip]. destruct (Str.isspace c) eqn:Hc; [|exact H].
  apply IH. rewrite rstrip_cons, Hc in H.
  destruct (Str.rstrip s) as [|a r]; [discriminate|].
  inversion H. reflexivity.
Qed.

Lemma strip_idempotent (s : string) : Str.strip (Str.strip s) = Str.strip s.
Proof.
  unfold Str.strip.
  rewrite (rstrip_lstrip _ (rstrip_idempotent s)). apply lstrip_idempotent.
Qed.

End StripFacts.

(** X25. [isup] does not see the white space around its input: the input
    and the stripped input get the same answer, and the same sentence. *)
Theorem isup_ignores_outer_space (w : World) (text : string) :
  pagecheck.isup w (Str.strip text) = pagecheck.isup w text.
Proof. unfold pagecheck.isup. rewrite strip_idempotent. reflexivity. Qed.

(** X22. When [isup] answers ["Failed to get status."]: exactly when the
    request met a connection failure, or got a response whose status is
    neither 200 nor an error status, 400 to 599. No page gives that
    answer, and an error status gives no answer at all. *)
Theorem isup_fixed_message (w : World) (text : string) (parts : SplitResult) :
  urlsplit w (Str.strip text) = Return parts ->
  pagecheck.isup w text = Return "Failed to get status."
  <->
  (requests.get w ("http://isup.me/" +:+
                   (if Str.truthy (netloc parts) then netloc parts else path parts))
                [] true = Raise ConnectionError
   \/ exists r,
        requests.get w ("http://isup.me/" +:+
                        (if Str.truthy (netloc parts) then netloc parts else path parts))
                     [] true = Return r
        /\ (status_code r < 400 \/ 600 <= status_code r)
        /\ status_code r <> requests.codes_ok).
Proof.
  intros Hsplit. split.
  - unfold pagecheck.isup. rewrite Hsplit. cbn [rbind].
    destruct (requests.get w _ [] true) as [r|e]; cbn [rbind].
    + unfold requests.raise_for_status.
      destruct ((400 <=? status_code r) && (status_code r <? 600)) eqn:Herr;
        cbn [rbind]; [discriminate|].
      destruct (status_code r =? requests.codes_ok) eqn:Hok; cbn [negb].
      * destruct (find_div_text w (response_text r) "domain-main-content") as [t|];
          [|discriminate].
        destruct (Str.contains "not just you" (Str.strip t)); [discriminate|].
        destruct (Str.contains "is up" (Str.strip t)); discriminate.
      * intros _. right. exists r. split; [reflexivity|].
        apply andb_false_iff in Herr. apply Z.eqb_neq in Hok. split; [lia | exact Hok].
    + destruct e; cbn [is_ConnectionError]; try discriminate.
      intros _. left. reflexivity.
  - intros [Hget|(r & Hget & Hstatus & Hne)].
    + exact (proj1 (isup_failed_to_get_status w text parts Hsplit) Hget).
    + exact (proj2 (isup_failed_to_get_status w text parts Hsplit) r Hget Hstatus Hne).
Qed.

Lemma isup_fixed_message_witness :
  pagecheck.isup (Sample.world (Return Sample.not_modified) None) "example.com"
    = Return "Failed to get status.".
Proof.
  apply (proj2 (isup_fixed_message
                  (Sample.world (Return Sample.not_modified) None) "example.com"
                  (mkSplit EmptyString EmptyString "example.com" EmptyString EmptyString)
                  eq_refl)).
  right. exists Sample.not_modified.
  split; [reflexivity|]. split; [left; cbn; lia | discriminate].
Defined.

(** X26. The requested pastebin comes first: when it is registered and
    its [paste] does not raise [ServiceError], [paste] ends as it does, the
    other pastebins are not tried and nothing is logged. *)
Theorem paste_requested_backend_first (w : World) (data ext service : string)
    (st : state) (reg : pydict instance) (impl : instance) :
  heap st !! web.pastebins = Some reg ->
  Dict.get reg service = Some impl ->
  ~ raises_ServiceError (call_paste impl w data ext) ->
  exists st',
    web.paste w data ext service st = Some (call_paste impl w data ext, st')
    /\ logged st' = logged st.
Proof.
  intros Hreg G Hno. rewrite (paste_start _ _ _ _ _ _ Hreg), G.
  destruct (call_paste impl w data ext) as [v|e] eqn:Hcall.
  - rewrite (paste_loop_return _ _ _ _ _ _ _ _ Hcall). eexists. split; reflexivity.
  - destruct (is_ServiceError e) eqn:He.
    + exfalso. apply Hno. destruct e; try discriminate. do 2 eexists. reflexivity.
    + rewrite (paste_loop_raise _ _ _ _ _ _ _ _ Hcall He). eexists. split; reflexivity.
Qed.

Lemma paste_requested_backend_first_witness :
  exists st',
    web.paste Sample.failing "data" "txt" "spare" Sample.with_offline
      = Some (call_paste (PastebinObj (Sample.fixed_paste
                                         (Return (PyStr "https://spare.example/1"))))
                Sample.failing "data" "txt", st')
    /\ logged st' = logged Sample.with_offline.
Proof.
  apply (paste_requested_backend_first Sample.failing "data" "txt" "spare"
           Sample.with_offline _ _ with_offline_pastebins eq_refl).
  intros (m & q & H). discriminate.
Defined.
